(** * Filtering and pagination helpers of the NestJS starter kit

    A shallow embedding of
    - [src/components/swagger/dto/pagination.dto.ts]  (FilterType, DTOs),
    - [src/components/swagger/pagination/pagination.helper.ts]
      (PaginationHelper),
    - [src/components/dto/search-query.dto.ts]  (SearchHelper), and
    - the [meta] object of [src/components/http/response-helper.ts],
    together with the properties the specification states about them.

    Conventions of the embedding.
    - A JavaScript string is a [string]; every [ascii] stands for one code
      unit below 256.
    - An optional property ([search_query?: string]) is an [option];
      [None] is [undefined].
    - A JavaScript number is NaN, an infinity or an exact finite value.
    - Arrays that the code only reads or pushes to are lists; the local
      [errors] array, the query builder and the console are threaded
      explicitly as state.
    - What belongs to the runtime or to TypeORM ([JSON.parse],
      [JSON.stringify], [getManyAndCount]) is a parameter. *)

From Stdlib Require Import ZArith QArith Qcanon Qround Lia Ascii String.
From stdpp Require Import base option list strings pretty gmap.

Local Open Scope string_scope.
Local Open Scope list_scope.

(** ** JavaScript string primitives used by the helpers *)

Module JS.

(** Truthiness of a string: only the empty string is falsy. *)
Definition truthy_string (s : string) : bool :=
  match s with
  | EmptyString => false
  | String _ _ => true
  end.

(** Truthiness of an optional string: [undefined] and [''] are falsy. *)
Definition truthy (o : option string) : bool :=
  match o with
  | None => false
  | Some s => truthy_string s
  end.

(** [`${v}`] for an optional string. *)
Definition template (o : option string) : string :=
  match o with
  | None => "undefined"
  | Some s => s
  end.

(** [a || b] on optional strings, where [b] is a string. *)
Definition or_else (o : option string) (d : string) : string :=
  match o with
  | Some (String c s) => String c s
  | _ => d
  end.

(** [Array.prototype.includes] on an array of strings. *)
Fixpoint includes (l : list string) (x : string) : bool :=
  match l with
  | [] => false
  | y :: l' => if String.eqb y x then true else includes l' x
  end.

(** White space and line terminators removed by [String.prototype.trim],
    among the code units below 256: TAB, LF, VT, FF, CR, SP and NBSP. *)
Definition is_white_space (c : ascii) : bool :=
  let n := nat_of_ascii c in
  (n =? 9)%nat || (n =? 10)%nat || (n =? 11)%nat || (n =? 12)%nat
  || (n =? 13)%nat || (n =? 32)%nat || (n =? 160)%nat.

Fixpoint trimStart (s : string) : string :=
  match s with
  | EmptyString => EmptyString
  | String c s' => if is_white_space c then trimStart s' else s
  end.

(** [trimEnd s] drops the trailing white space: a character is kept when
    it is not white space or when something is kept after it. *)
Fixpoint trimEnd (s : string) : string :=
  match s with
  | EmptyString => EmptyString
  | String c s' =>
      match trimEnd s' with
      | EmptyString => if is_white_space c then EmptyString
                       else String c EmptyString
      | t => String c t
      end
  end.

Definition trim (s : string) : string := trimEnd (trimStart s).

(** [s.split(sep)] for a one-character separator: the pieces between
    the separators, in order; [n] separators give [n + 1] pieces. *)
Fixpoint split_go (sep : ascii) (cur : string) (s : string) : list string :=
  match s with
  | EmptyString => [cur]
  | String c s' =>
      if Ascii.eqb c sep then cur :: split_go sep EmptyString s'
      else split_go sep (cur +:+ String c EmptyString) s'
  end.

Definition split (sep : ascii) (s : string) : list string :=
  split_go sep EmptyString s.

(** The number of occurrences of a character. *)
Fixpoint count_char (c : ascii) (s : string) : nat :=
  match s with
  | EmptyString => O
  | String d s' => (if Ascii.eqb d c then 1 else 0) + count_char c s'
  end.

(** [toUpperCase] on the letters [a]..[z]; other code units are kept.
    The source applies it only to one of ['asc'], ['desc'], ['ASC'],
    ['DESC']. *)
Definition upper_char (c : ascii) : ascii :=
  let n := nat_of_ascii c in
  if (97 <=? n)%nat && (n <=? 122)%nat then ascii_of_nat (n - 32) else c.

Fixpoint toUpperCase (s : string) : string :=
  match s with
  | EmptyString => EmptyString
  | String c s' => String (upper_char c) (toUpperCase s')
  end.

(** [toLowerCase] on the letters [A]..[Z], for stating what a
    case-insensitive comparison would accept. *)
Definition lower_char (c : ascii) : ascii :=
  let n := nat_of_ascii c in
  if (65 <=? n)%nat && (n <=? 90)%nat then ascii_of_nat (n + 32) else c.

Fixpoint toLowerCase (s : string) : string :=
  match s with
  | EmptyString => EmptyString
  | String c s' => String (lower_char c) (toLowerCase s')
  end.

End JS.

(** ** pagination.dto.ts *)

(** The members of [enum FilterType], in declaration order. *)
Inductive FilterType : Type :=
  | EQUAL | NOT_EQUAL
  | LIKE | ILIKE | NOT_LIKE | NOT_ILIKE
  | GREATER_THAN | GREATER_EQUAL | LESS_THAN | LESS_EQUAL
  | BETWEEN | NOT_BETWEEN
  | IN | NOT_IN
  | IS_NULL | IS_NOT_NULL
  | STARTS_WITH | ENDS_WITH | CONTAINS | ICONTAINS
  | REGEXP | IREGEXP
  | JSON_CONTAINS | JSON_CONTAINED | JSON_EXTRACT | JSON_EXTRACT_TEXT
  | ARRAY_CONTAINS | ARRAY_OVERLAP.

(** The string value of each member. *)
Definition FilterType_value (t : FilterType) : string :=
  match t with
  | EQUAL => "equal" | NOT_EQUAL => "not_equal"
  | LIKE => "like" | ILIKE => "ilike"
  | NOT_LIKE => "not_like" | NOT_ILIKE => "not_ilike"
  | GREATER_THAN => "greater_than" | GREATER_EQUAL => "greater_equal"
  | LESS_THAN => "less_than" | LESS_EQUAL => "less_equal"
  | BETWEEN => "between" | NOT_BETWEEN => "not_between"
  | IN => "in" | NOT_IN => "not_in"
  | IS_NULL => "is_null" | IS_NOT_NULL => "is_not_null"
  | STARTS_WITH => "starts_with" | ENDS_WITH => "ends_with"
  | CONTAINS => "contains" | ICONTAINS => "icontains"
  | REGEXP => "regexp" | IREGEXP => "iregexp"
  | JSON_CONTAINS => "json_contains" | JSON_CONTAINED => "json_contained"
  | JSON_EXTRACT => "json_extract" | JSON_EXTRACT_TEXT => "json_extract_text"
  | ARRAY_CONTAINS => "array_contains" | ARRAY_OVERLAP => "array_overlap"
  end.

Definition all_FilterTypes : list FilterType :=
  [ EQUAL; NOT_EQUAL; LIKE; ILIKE; NOT_LIKE; NOT_ILIKE;
    GREATER_THAN; GREATER_EQUAL; LESS_THAN; LESS_EQUAL;
    BETWEEN; NOT_BETWEEN; IN; NOT_IN; IS_NULL; IS_NOT_NULL;
    STARTS_WITH; ENDS_WITH; CONTAINS; ICONTAINS; REGEXP; IREGEXP;
    JSON_CONTAINS; JSON_CONTAINED; JSON_EXTRACT; JSON_EXTRACT_TEXT;
    ARRAY_CONTAINS; ARRAY_OVERLAP ].

(** How a [switch (filter.filter_type)] over the members dispatches: the
    member whose value is strictly equal to the string, if any.  At run
    time the property can hold any string, which is why both helpers have
    a path for values outside the enum. *)
Definition FilterType_of_string (s : string) : option FilterType :=
  find (fun t => String.eqb (FilterType_value t) s) all_FilterTypes.

(** [class PaginationFilterDto] *)
Record PaginationFilterDto : Type := {
  search_by : string;
  filter_type : string;
  search_query : option string;
  start_value : option string;
  end_value : option string;
  values_list : option string;
}.

(** The operand shape each operator requires: the four groups of the
    [switch] in [validateFilters]. *)
Inductive Arity : Type := NoOperand | SingleValue | Range | ValueList.

Definition arity_of (t : FilterType) : Arity :=
  match t with
  | EQUAL | NOT_EQUAL | LIKE | ILIKE | NOT_LIKE | NOT_ILIKE
  | GREATER_THAN | GREATER_EQUAL | LESS_THAN | LESS_EQUAL
  | STARTS_WITH | ENDS_WITH | CONTAINS | ICONTAINS | REGEXP | IREGEXP
  | JSON_CONTAINS | JSON_CONTAINED | JSON_EXTRACT | JSON_EXTRACT_TEXT
  | ARRAY_CONTAINS => SingleValue
  | BETWEEN | NOT_BETWEEN => Range
  | IN | NOT_IN | ARRAY_OVERLAP => ValueList
  | IS_NULL | IS_NOT_NULL => NoOperand
  end.

(** A required operand is missing: the property is [undefined] or ['']. *)
Definition operands_missing (t : FilterType) (f : PaginationFilterDto) : bool :=
  match arity_of t with
  | SingleValue => negb (JS.truthy (search_query f))
  | Range => negb (JS.truthy (start_value f)) || negb (JS.truthy (end_value f))
  | ValueList => negb (JS.truthy (values_list f))
  | NoOperand => false
  end.

(** The operand properties present are exactly the required ones: the
    invariant of the specification's data model. *)
Definition operands_exact (t : FilterType) (f : PaginationFilterDto) : bool :=
  let q := JS.truthy (search_query f) in
  let s := JS.truthy (start_value f) in
  let e := JS.truthy (end_value f) in
  let l := JS.truthy (values_list f) in
  match arity_of t with
  | SingleValue => q && negb s && negb e && negb l
  | Range => negb q && s && e && negb l
  | ValueList => negb q && negb s && negb e && l
  | NoOperand => negb q && negb s && negb e && negb l
  end.

(** ** PaginationHelper.validateFilters *)

Module Validator.

(** The arrays the call works on: the two arguments and the local
    [errors] array that is returned. *)
Record Heap : Type := {
  filters : list PaginationFilterDto;
  allowedFields : list string;
  errors : list string;
}.

(** [errors.push(msg)] *)
Definition push (msg : string) (h : Heap) : Heap :=
  {| filters := filters h;
     allowedFields := allowedFields h;
     errors := errors h ++ [msg] |}.

(** [`Filter ${index + 1}`] *)
Definition prefix (index : nat) : string :=
  "Filter " +:+ pretty (index + 1)%nat.

Definition msg_not_allowed (index : nat) (f : PaginationFilterDto) : string :=
  prefix index +:+ ": '" +:+ search_by f +:+ "' is not an allowed search field".

Definition msg_search_query (index : nat) (f : PaginationFilterDto) : string :=
  prefix index +:+ ": 'search_query' is required for "
    +:+ filter_type f +:+ " filter".

Definition msg_range (index : nat) (f : PaginationFilterDto) : string :=
  prefix index +:+ ": 'start_value' and 'end_value' are required for "
    +:+ filter_type f +:+ " filter".

Definition msg_values_list (index : nat) (f : PaginationFilterDto) : string :=
  prefix index +:+ ": 'values_list' is required for "
    +:+ filter_type f +:+ " filter".

Definition msg_unknown (index : nat) (f : PaginationFilterDto) : string :=
  prefix index +:+ ": Unknown filter type '" +:+ filter_type f +:+ "'".

(** [if (!allowedFields.includes(filter.search_by)) errors.push(...)] *)
Definition check_field (filter : PaginationFilterDto) (index : nat)
    (h : Heap) : Heap :=
  if negb (JS.includes (allowedFields h) (search_by filter))
  then push (msg_not_allowed index filter) h
  else h.

(** [switch (filter.filter_type) { ... }] *)
Definition check_operands (filter : PaginationFilterDto) (index : nat)
    (h : Heap) : Heap :=
  match FilterType_of_string (filter_type filter) with
  | Some (EQUAL | NOT_EQUAL | LIKE | ILIKE | NOT_LIKE | NOT_ILIKE
         | GREATER_THAN | GREATER_EQUAL | LESS_THAN | LESS_EQUAL
         | STARTS_WITH | ENDS_WITH | CONTAINS | ICONTAINS
         | REGEXP | IREGEXP
         | JSON_CONTAINS | JSON_CONTAINED | JSON_EXTRACT | JSON_EXTRACT_TEXT
         | ARRAY_CONTAINS) =>
      if negb (JS.truthy (search_query filter))
      then push (msg_search_query index filter) h
      else h
  | Some (BETWEEN | NOT_BETWEEN) =>
      if negb (JS.truthy (start_value filter))
         || negb (JS.truthy (end_value filter))
      then push (msg_range index filter) h
      else h
  | Some (IN | NOT_IN | ARRAY_OVERLAP) =>
      if negb (JS.truthy (values_list filter))
      then push (msg_values_list index filter) h
      else h
  | Some (IS_NULL | IS_NOT_NULL) => h
  | None => push (msg_unknown index filter) h
  end.

(** The callback of [filters.forEach].  On arguments of the declared
    types none of its operations throws: it reads string properties, calls
    [includes] on an array and [push] on the local array, and builds
    template strings. *)
Definition validate_filter (filter : PaginationFilterDto) (index : nat)
    (h : Heap) : Heap :=
  check_operands filter index (check_field filter index h).

(** [filters.forEach(cb)]: the number of iterations is the length at the
    start, and each element is read from the array when its turn comes. *)
Fixpoint forEach (cb : PaginationFilterDto -> nat -> Heap -> Heap)
    (count index : nat) (h : Heap) : Heap :=
  match count with
  | O => h
  | S count' =>
      forEach cb count' (S index)
        (match filters h !! index with
         | Some filter => cb filter index h
         | None => h
         end)
  end.

Definition run (h : Heap) : Heap :=
  forEach validate_filter (length (filters h)) 0 h.

(** The heap at entry: [const errors: string[] = []]. *)
Definition enter (fs : list PaginationFilterDto) (al : list string) : Heap :=
  {| filters := fs; allowedFields := al; errors := [] |}.

(** [validateFilters(filters, allowedFields)]: [return errors]. *)
Definition validateFilters (fs : list PaginationFilterDto)
    (al : list string) : list string :=
  errors (run (enter fs al)).

(** What one filter at one position contributes to [errors]. *)
Definition filter_errors (al : list string) (index : nat)
    (f : PaginationFilterDto) : list string :=
  errors (validate_filter f index (enter [] al)).

(** The contributions of the filters [fs] standing at positions [index],
    [index + 1], ... *)
Definition errors_from (al : list string) (index : nat)
    (fs : list PaginationFilterDto) : list string :=
  concat (imap (fun k f => filter_errors al (index + k) f) fs).

(** The message about the field, if any. *)
Definition field_errors (al : list string) (index : nat)
    (f : PaginationFilterDto) : list string :=
  if JS.includes al (search_by f) then [] else [msg_not_allowed index f].

(** The message about a missing required operand of operator [t]. *)
Definition operand_message (t : FilterType) (index : nat)
    (f : PaginationFilterDto) : string :=
  match arity_of t with
  | SingleValue => msg_search_query index f
  | Range => msg_range index f
  | ValueList => msg_values_list index f
  | NoOperand => EmptyString
  end.

Definition operand_errors (t : FilterType) (index : nat)
    (f : PaginationFilterDto) : list string :=
  if operands_missing t f then [operand_message t index f] else [].

End Validator.

(** ** validateFilters on the values a request delivers

    [filters] is declared [PaginationFilterDto[]], but the array is part
    of a parsed request body and the declared type is not enforced when
    the call is made: an element can be [null].  Reading a property of
    [null] or [undefined] throws a [TypeError], and the first thing the
    callback evaluates is [filter.search_by].  An [object] is a filter as
    [Validator] has it. *)

Module Untyped.

Inductive Element : Type :=
  | null
  | undefined
  | object (filter : PaginationFilterDto).

Inductive Error : Type :=
  | TypeError.

Record Heap : Type := {
  filters : list Element;
  allowedFields : list string;
  errors : list string;
}.

(** How a step ends: normally, or by throwing; either way with the heap
    as it is at that moment. *)
Inductive Completion : Type :=
  | Returns (h : Heap)
  | Throws (e : Error) (h : Heap).


(** The callback reads [allowedFields] and pushes to [errors]; on an
    object these are the steps of [Validator.validate_filter], which does
    not look at the array of filters. *)
Definition typed (h : Heap) : Validator.Heap :=
  {| Validator.filters := [];
     Validator.allowedFields := allowedFields h;
     Validator.errors := errors h |}.

Definition store (h : Heap) (v : Validator.Heap) : Heap :=
  {| filters := filters h;
     allowedFields := Validator.allowedFields v;
     errors := Validator.errors v |}.

(** The callback of [filters.forEach]: [filter.search_by] throws when
    [filter] is [null] or [undefined], before anything is pushed. *)
Definition validate_filter (filter : Element) (index : nat)
    (h : Heap) : Completion :=
  match filter with
  | object f => Returns (store h (Validator.validate_filter f index (typed h)))
  | null | undefined => Throws TypeError h
  end.

(** [filters.forEach(cb)]: an exception thrown by the callback ends the
    loop and leaves the call. *)
Fixpoint forEach (cb : Element -> nat -> Heap -> Completion)
    (count index : nat) (h : Heap) : Completion :=
  match count with
  | O => Returns h
  | S count' =>
      match filters h !! index with
      | Some filter =>
          match cb filter index h with
          | Returns h' => forEach cb count' (S index) h'
          | Throws e h' => Throws e h'
          end
      | None => forEach cb count' (S index) h
      end
  end.

Definition run (h : Heap) : Completion :=
  forEach validate_filter (length (filters h)) 0 h.

Definition enter (fs : list Element) (al : list string) : Heap :=
  {| filters := fs; allowedFields := al; errors := [] |}.

(** [validateFilters(filters, allowedFields)]: the returned [errors], or
    the exception that leaves the call. *)
Definition validateFilters (fs : list Element) (al : list string)
    : Error + list string :=
  match run (enter fs al) with
  | Returns h => inr (errors h)
  | Throws e _ => inl e
  end.

End Untyped.

(** ** JavaScript numbers

    A number is NaN, an infinity or a finite value.  Finite values are
    exact rationals in lowest terms, so equal numbers are equal terms.
    This agrees with IEEE-754 doubles as long as no operation rounds,
    which is the case for the page numbers, page sizes and row counts the
    helpers work on (integers below 2^53 and their quotients before
    [Math.ceil]).  The sign of zero is not represented. *)

Module Number.

Local Open Scope Qc_scope.

Inductive number : Type :=
  | NaN
  | PosInf
  | NegInf
  | Fin (q : Qc).

Definition of_Z (z : Z) : number := Fin (Qc_of_Z z).
Definition of_nat (n : nat) : number := of_Z (Z.of_nat n).

Definition zero : number := of_Z 0.
Definition one : number := of_Z 1.

Definition Qc_ltb (x y : Qc) : bool :=
  match x ?= y with Lt => true | _ => false end.

Definition Qc_eqb (x y : Qc) : bool :=
  match x ?= y with Eq => true | _ => false end.

(** [isNaN(n)] *)
Definition isNaN (n : number) : bool :=
  match n with NaN => true | _ => false end.

(** Truthiness: [0] and [NaN] are falsy. *)
Definition truthy (n : number) : bool :=
  match n with
  | NaN => false
  | Fin q => negb (Qc_eqb q 0)
  | PosInf | NegInf => true
  end.

(** [a < b]; every comparison with NaN is false. *)
Definition lt (a b : number) : bool :=
  match a, b with
  | NaN, _ | _, NaN => false
  | Fin x, Fin y => Qc_ltb x y
  | NegInf, NegInf => false
  | NegInf, _ => true
  | PosInf, _ => false
  | Fin _, PosInf => true
  | Fin _, NegInf => false
  end.

(** [a > b] *)
Definition gt (a b : number) : bool := lt b a.

(** [a >= b] *)
Definition ge (a b : number) : bool :=
  negb (isNaN a) && negb (isNaN b) && negb (lt a b).

(** [Math.floor] and [Math.ceil] *)
Definition floor (n : number) : number :=
  match n with
  | Fin q => of_Z (Qfloor q)
  | _ => n
  end.

Definition ceil (n : number) : number :=
  match n with
  | Fin q => of_Z (Qceiling q)
  | _ => n
  end.

(** [Math.max(a, b)] and [Math.min(a, b)]: NaN if an argument is NaN. *)
Definition max (a b : number) : number :=
  match a, b with
  | NaN, _ | _, NaN => NaN
  | _, _ => if lt a b then b else a
  end.

Definition min (a b : number) : number :=
  match a, b with
  | NaN, _ | _, NaN => NaN
  | _, _ => if lt b a then b else a
  end.

Definition opp (a : number) : number :=
  match a with
  | NaN => NaN
  | PosInf => NegInf
  | NegInf => PosInf
  | Fin q => Fin (- q)
  end.

(** [a + b] *)
Definition add (a b : number) : number :=
  match a, b with
  | NaN, _ | _, NaN => NaN
  | PosInf, NegInf | NegInf, PosInf => NaN
  | PosInf, _ | _, PosInf => PosInf
  | NegInf, _ | _, NegInf => NegInf
  | Fin x, Fin y => Fin (x + y)
  end.

(** [a - b] *)
Definition sub (a b : number) : number := add a (opp b).

(** An infinity times a finite factor [y]: NaN for zero, otherwise the
    infinity with the product's sign. *)
Definition scale_inf (positive : bool) (y : Qc) : number :=
  if Qc_eqb y 0 then NaN
  else if Bool.eqb positive (Qc_ltb 0 y) then PosInf else NegInf.

(** [a * b] *)
Definition mul (a b : number) : number :=
  match a, b with
  | NaN, _ | _, NaN => NaN
  | Fin x, Fin y => Fin (x * y)
  | PosInf, Fin y | Fin y, PosInf => scale_inf true y
  | NegInf, Fin y | Fin y, NegInf => scale_inf false y
  | PosInf, PosInf | NegInf, NegInf => PosInf
  | PosInf, NegInf | NegInf, PosInf => NegInf
  end.

(** [a / b] *)
Definition div (a b : number) : number :=
  match a, b with
  | NaN, _ | _, NaN => NaN
  | Fin x, Fin y =>
      if Qc_eqb y 0
      then (if Qc_eqb x 0 then NaN else if Qc_ltb 0 x then PosInf else NegInf)
      else Fin (x / y)
  | Fin _, (PosInf | NegInf) => zero
  | PosInf, Fin y => if Qc_ltb y 0 then NegInf else PosInf
  | NegInf, Fin y => if Qc_ltb y 0 then PosInf else NegInf
  | (PosInf | NegInf), (PosInf | NegInf) => NaN
  end.

(** [o || d] for an optional number [o]. *)
Definition or_else (o : option number) (d : number) : number :=
  match o with
  | Some n => if truthy n then n else d
  | None => d
  end.

(** The number is a finite integer. *)
Definition is_integer (n : number) : bool :=
  match n with
  | Fin q => Qc_eqb (Qc_of_Z (Qfloor q)) q
  | _ => false
  end.

Definition is_finite (n : number) : bool :=
  match n with
  | Fin _ => true
  | _ => false
  end.

(** [clamp(x, lo, hi)], composed as the helper composes it: first the
    upper bound, then the lower one. *)
Definition clamp (x lo hi : number) : number := max lo (min x hi).

(** An optional number that is no number: [undefined] or [NaN]. *)
Definition non_numeric (o : option number) : bool :=
  match o with
  | None => true
  | Some n => isNaN n
  end.

(** An optional number below one. *)
Definition below_one (o : option number) : bool :=
  match o with
  | Some n => lt n one
  | None => false
  end.

End Number.

(** ** The request DTOs *)

Module PaginationRequest.

(** [class PaginationRequestDto] *)
Record PaginationRequestDto : Type := {
  page : option Number.number;
  per_page : option Number.number;
  sort_by : option string;
  sort_order : option string;
  filters : option (list PaginationFilterDto);
}.

End PaginationRequest.

Module QueryRequest.

(** [class QueryRequestBodyDto] *)
Record QueryRequestBodyDto : Type := {
  search : option string;
  sort_by : option string;
  sort_order : option string;
  filters : option (list PaginationFilterDto);
}.

End QueryRequest.

(** ** The collaborators: TypeORM's query builder and the console *)

Module Builder.

(** A bound parameter value: a string property that may be [undefined],
    or an array of strings. *)
Inductive ParamValue : Type :=
  | PUndefined
  | PString (s : string)
  | PArray (l : list string).

Definition of_option (o : option string) : ParamValue :=
  match o with
  | None => PUndefined
  | Some s => PString s
  end.

(** One [andWhere(condition, parameters)] call. *)
Record Predicate : Type := {
  condition : string;
  parameters : gmap string ParamValue;
}.

(** What the helpers accumulate in a [SelectQueryBuilder]: the conjunction
    of [andWhere] predicates in call order, the ordering set by the last
    [orderBy], and the window set by [skip] and [take]. *)
Record SelectQueryBuilder : Type := {
  wheres : list Predicate;
  order : option (string * string);
  skipped : option Number.number;
  taken : option Number.number;
}.

Definition andWhere (c : string) (ps : gmap string ParamValue)
    (qb : SelectQueryBuilder) : SelectQueryBuilder :=
  {| wheres := wheres qb ++ [ {| condition := c; parameters := ps |} ];
     order := order qb; skipped := skipped qb; taken := taken qb |}.

Definition orderBy (sort direction : string)
    (qb : SelectQueryBuilder) : SelectQueryBuilder :=
  {| wheres := wheres qb; order := Some (sort, direction);
     skipped := skipped qb; taken := taken qb |}.

Definition skip (n : Number.number)
    (qb : SelectQueryBuilder) : SelectQueryBuilder :=
  {| wheres := wheres qb; order := order qb;
     skipped := Some n; taken := taken qb |}.

Definition take (n : Number.number)
    (qb : SelectQueryBuilder) : SelectQueryBuilder :=
  {| wheres := wheres qb; order := order qb;
     skipped := skipped qb; taken := Some n |}.

Inductive Level : Type := LevelLog | LevelWarn | LevelError.

(** An argument of a console call: a string, an array of strings that
    the console renders itself, or the text [JSON.stringify(query, null, 2)]
    of a query, kept as the query it renders. *)
Inductive ConsoleArg : Type :=
  | AText (s : string)
  | AStrings (l : list string)
  | AQueryJson (query : QueryRequest.QueryRequestBodyDto).

Record ConsoleCall : Type := {
  level : Level;
  arguments : list ConsoleArg;
}.

(** The state the search helper acts on. *)
Record World : Type := {
  queryBuilder : SelectQueryBuilder;
  console : list ConsoleCall;
}.

Definition on_builder (f : SelectQueryBuilder -> SelectQueryBuilder)
    (w : World) : World :=
  {| queryBuilder := f (queryBuilder w); console := console w |}.

Definition emit (l : Level) (args : list ConsoleArg) (w : World) : World :=
  {| queryBuilder := queryBuilder w;
     console := console w ++ [ {| level := l; arguments := args |} ] |}.

Definition console_log := emit LevelLog.
Definition console_warn := emit LevelWarn.
Definition console_error := emit LevelError.

End Builder.

(** ** SearchHelper *)

Module Search.

Import Builder.

(** The field-name check shared by [buildSearchQuery] and
    [buildSortQuery].  [typeof s === 'string'] holds by the type of [s]. *)
Definition field_guard (allowed : list string) (s : string) : bool :=
  JS.truthy_string s
  && negb (String.eqb (JS.trim s) EmptyString)
  && negb (String.eqb s "NaN")
  && negb (String.eqb s "undefined")
  && negb (String.eqb s "null")
  && JS.includes allowed s.

(** [filter.values_list.split(',').map((val) => val.trim())] *)
Definition split_values (s : string) : list string :=
  map JS.trim (JS.split "," s).

(** The specification's reading of the same step: split on commas, trim
    each element, drop the empty strings. *)
Definition split_values_spec (s : string) : list string :=
  List.filter JS.truthy_string (map JS.trim (JS.split "," s)).

(** The specification's reading of the sort order: a case-insensitive
    match against [asc] and [desc], ascending when neither. *)
Definition sort_order_spec (o : option string) : string :=
  match o with
  | Some s => if String.eqb (JS.toLowerCase s) "desc" then "DESC" else "ASC"
  | None => "ASC"
  end.

Section WithJSON.

(** [JSON.parse] and [JSON.stringify] belong to the runtime: [JSON_parse]
    is [None] where [JSON.parse] throws. *)
Variable JsonValue : Type.
Variable JSON_parse : string -> option JsonValue.
Variable JSON_stringify : JsonValue -> string.

(** A structured-value containment case: the [try] block around
    [JSON.parse(filter.search_query || '{}')]. *)
Definition json_case (fieldName op paramName : string)
    (filter : PaginationFilterDto) (w : World) : World :=
  match JSON_parse (JS.or_else (search_query filter) "{}") with
  | Some jsonValue =>
      on_builder
        (andWhere (fieldName +:+ op +:+ paramName)
           {[ paramName := PString (JSON_stringify jsonValue) ]}) w
  | None =>
      console_error
        [AText ("Invalid JSON in filter: "
                +:+ JS.template (search_query filter))] w
  end.

(** A pattern case: [queryBuilder.andWhere(sql, { [paramName]: value })]. *)
Definition bind1 (sql paramName : string) (v : ParamValue)
    (w : World) : World :=
  on_builder (andWhere sql {[ paramName := v ]}) w.

(** The callback of [query.filters.forEach]. *)
Definition compile_filter (allowedFields : list string) (alias : string)
    (filter : PaginationFilterDto) (index : nat) (w : World) : World :=
  if field_guard allowedFields (search_by filter) then
    let fieldName := alias +:+ "." +:+ search_by filter in
    let paramName := "param_" +:+ pretty index in
    let q := search_query filter in
    let both := PString ("%" +:+ JS.template q +:+ "%") in
    match FilterType_of_string (filter_type filter) with
    | Some EQUAL =>
        bind1 (fieldName +:+ " = :" +:+ paramName) paramName (of_option q) w
    | Some NOT_EQUAL =>
        bind1 (fieldName +:+ " != :" +:+ paramName) paramName (of_option q) w
    | Some LIKE =>
        bind1 (fieldName +:+ " LIKE :" +:+ paramName) paramName both w
    | Some ILIKE =>
        bind1 ("LOWER(" +:+ fieldName +:+ ") LIKE LOWER(:" +:+ paramName +:+ ")")
          paramName both w
    | Some NOT_LIKE =>
        bind1 (fieldName +:+ " NOT LIKE :" +:+ paramName) paramName both w
    | Some NOT_ILIKE =>
        bind1 ("LOWER(" +:+ fieldName +:+ ") NOT LIKE LOWER(:"
               +:+ paramName +:+ ")") paramName both w
    | Some STARTS_WITH =>
        bind1 (fieldName +:+ " LIKE :" +:+ paramName) paramName
          (PString (JS.template q +:+ "%")) w
    | Some ENDS_WITH =>
        bind1 (fieldName +:+ " LIKE :" +:+ paramName) paramName
          (PString ("%" +:+ JS.template q)) w
    | Some CONTAINS =>
        bind1 (fieldName +:+ " LIKE :" +:+ paramName) paramName both w
    | Some ICONTAINS =>
        bind1 ("LOWER(" +:+ fieldName +:+ ") LIKE LOWER(:" +:+ paramName +:+ ")")
          paramName both w
    | Some GREATER_THAN =>
        bind1 (fieldName +:+ " > :" +:+ paramName) paramName (of_option q) w
    | Some GREATER_EQUAL =>
        bind1 (fieldName +:+ " >= :" +:+ paramName) paramName (of_option q) w
    | Some LESS_THAN =>
        bind1 (fieldName +:+ " < :" +:+ paramName) paramName (of_option q) w
    | Some LESS_EQUAL =>
        bind1 (fieldName +:+ " <= :" +:+ paramName) paramName (of_option q) w
    | Some BETWEEN =>
        if JS.truthy (start_value filter) && JS.truthy (end_value filter) then
          on_builder
            (andWhere (fieldName +:+ " BETWEEN :start_" +:+ paramName
                       +:+ " AND :end_" +:+ paramName)
               (<[ "start_" +:+ paramName := of_option (start_value filter) ]>
                  {[ "end_" +:+ paramName := of_option (end_value filter) ]})) w
        else w
    | Some NOT_BETWEEN =>
        if JS.truthy (start_value filter) && JS.truthy (end_value filter) then
          on_builder
            (andWhere (fieldName +:+ " NOT BETWEEN :start_" +:+ paramName
                       +:+ " AND :end_" +:+ paramName)
               (<[ "start_" +:+ paramName := of_option (start_value filter) ]>
                  {[ "end_" +:+ paramName := of_option (end_value filter) ]})) w
        else w
    | Some IN =>
        match values_list filter with
        | Some (String c s) =>
            bind1 (fieldName +:+ " IN (:..." +:+ paramName +:+ ")") paramName
              (PArray (split_values (String c s))) w
        | _ => w
        end
    | Some NOT_IN =>
        match values_list filter with
        | Some (String c s) =>
            bind1 (fieldName +:+ " NOT IN (:..." +:+ paramName +:+ ")")
              paramName (PArray (split_values (String c s))) w
        | _ => w
        end
    | Some IS_NULL =>
        on_builder (andWhere (fieldName +:+ " IS NULL") ∅) w
    | Some IS_NOT_NULL =>
        on_builder (andWhere (fieldName +:+ " IS NOT NULL") ∅) w
    | Some REGEXP =>
        bind1 (fieldName +:+ " REGEXP :" +:+ paramName) paramName
          (of_option q) w
    | Some IREGEXP =>
        bind1 ("LOWER(" +:+ fieldName +:+ ") REGEXP LOWER(:"
               +:+ paramName +:+ ")") paramName (of_option q) w
    | Some JSON_CONTAINS => json_case fieldName " @> :" paramName filter w
    | Some JSON_CONTAINED => json_case fieldName " <@ :" paramName filter w
    | Some ARRAY_CONTAINS =>
        if JS.truthy q then
          bind1 (fieldName +:+ " @> ARRAY[:" +:+ paramName +:+ "]") paramName
            (of_option q) w
        else w
    | Some ARRAY_OVERLAP =>
        match values_list filter with
        | Some (String c s) =>
            bind1 (fieldName +:+ " && ARRAY[:..." +:+ paramName +:+ "]")
              paramName (PArray (split_values (String c s))) w
        | _ => w
        end
    | Some (JSON_EXTRACT | JSON_EXTRACT_TEXT) =>
        console_warn
          [AText ("JSON path extraction (" +:+ filter_type filter
                  +:+ ") not fully implemented. "
                  +:+ "Needs database-specific handling.")] w
    | None => w
    end
  else w.

(** [query.filters.forEach((filter, index) => ...)] from position
    [index]; the callback writes to neither the array nor its elements. *)
Fixpoint compile_from (allowedFields : list string) (alias : string)
    (fs : list PaginationFilterDto) (index : nat) (w : World) : World :=
  match fs with
  | [] => w
  | filter :: fs' =>
      compile_from allowedFields alias fs' (S index)
        (compile_filter allowedFields alias filter index w)
  end.

(** [SearchHelper.buildSearchQuery(queryBuilder, query, allowedFields, alias)];
    the builder of the result is the returned one. *)
Definition buildSearchQuery (w : World) (query : QueryRequest.QueryRequestBodyDto)
    (allowedFields : list string) (alias : string) : World :=
  match QueryRequest.filters query with
  | Some fs => compile_from allowedFields alias fs 0 w
  | None => w
  end.

Definition validSortOrders : list string := ["asc"; "desc"; "ASC"; "DESC"].

(** [SearchHelper.buildSortQuery(queryBuilder, query, allowedSortFields, alias)] *)
Definition buildSortQuery (w : World) (query : QueryRequest.QueryRequestBodyDto)
    (allowedSortFields : list string) (alias : string) : World :=
  let w1 := console_log [AText "=== SEARCH HELPER DEBUG ==="] w in
  let w2 := console_log [AText "Input query:"; AQueryJson query] w1 in
  let w3 := console_log [AText "Allowed sort fields:";
                         AStrings allowedSortFields] w2 in
  let fallback :=
    on_builder (orderBy (alias +:+ ".created_at") "DESC")
      (console_log [AText "Using default sort order: created_at DESC"] w3) in
  match QueryRequest.sort_by query with
  | Some sort_by =>
      if field_guard allowedSortFields sort_by then
        let sortOrder :=
          match QueryRequest.sort_order query with
          | Some o =>
              if JS.truthy_string o && JS.includes validSortOrders o
              then JS.toUpperCase o else "ASC"
          | None => "ASC"
          end in
        let w4 := console_log [AText "Valid sort field detected:";
                               AText sort_by] w3 in
        let w5 := console_log [AText "Final sort order:"; AText sortOrder] w4 in
        on_builder (orderBy (alias +:+ "." +:+ sort_by) sortOrder) w5
      else fallback
  | None => fallback
  end.

End WithJSON.

Arguments json_case {JsonValue}.
Arguments compile_filter {JsonValue}.
Arguments compile_from {JsonValue}.
Arguments buildSearchQuery {JsonValue}.

End Search.

(** ** PaginationHelper: limits and metadata *)

Module Pagination.

Import Number.

(** [ConfigService.get]: the configured number, if the key is set. *)
Definition ConfigService : Type := string -> option number.

(** [configService?.get(key)] *)
Definition config_get (configService : option ConfigService)
    (key : string) : option number :=
  match configService with
  | Some c => c key
  | None => None
  end.

Definition defaultPageSize (configService : option ConfigService) : number :=
  or_else (config_get configService "pagination.defaultPageSize") (of_Z 10).

Definition maxPageSize (configService : option ConfigService) : number :=
  or_else (config_get configService "pagination.maxPageSize") (of_Z 100).

(** [!n || isNaN(n) || n < 1] *)
Definition unusable (n : number) : bool :=
  negb (truthy n) || isNaN n || lt n one.

(** [let page = paginationDto.page; if (...) page = 1;] *)
Definition coerce_page (p : option number) : number :=
  match p with
  | Some n => if unusable n then one else n
  | None => one
  end.

(** [let limit = paginationDto.per_page || defaultPageSize;
     if (...) limit = defaultPageSize;] *)
Definition coerce_per_page (pp : option number) (defaultSize : number) : number :=
  let limit := or_else pp defaultSize in
  if unusable limit then defaultSize else limit.

Record Limits : Type := {
  limit : number;
  offset : number;
  page : number;
}.

(** [PaginationHelper.getPaginationLimits(paginationDto, configService)] *)
Definition getPaginationLimits (dto : PaginationRequest.PaginationRequestDto)
    (configService : option ConfigService) : Limits :=
  let page := max one (floor (coerce_page (PaginationRequest.page dto))) in
  let limit :=
    coerce_per_page (PaginationRequest.per_page dto)
      (defaultPageSize configService) in
  let limit := min (floor limit) (maxPageSize configService) in
  let limit := max one limit in
  let offset := mul (sub page one) limit in
  {| limit := limit; offset := offset; page := page |}.

Record Meta : Type := {
  totalPages : number;
  currentPage : number;
  perPage : number;
  from : number;
  to : number;
}.

(** [PaginationHelper.calculateMeta(total, page, limit)] *)
Definition calculateMeta (total page limit : number) : Meta :=
  let totalPages := ceil (div total limit) in
  let currentPage := max one (min page totalPages) in
  let from :=
    if gt total zero then add (mul (sub currentPage one) limit) one
    else zero in
  let to := min (mul currentPage limit) total in
  {| totalPages := totalPages; currentPage := currentPage;
     perPage := limit; from := from; to := to |}.

(** The [meta] object of a paginated response. *)
Record ResponseMeta : Type := {
  current_page : number;
  last_page : number;
  per_page : number;
  total : number;
  meta_from : number;
  meta_to : number;
}.

Section WithRepository.

(** [queryBuilder.getManyAndCount()] belongs to TypeORM: for a builder it
    resolves to the rows of the window and the number of rows matching
    without the window, or rejects ([None]). *)
Variable Row : Type.
Variable getManyAndCount : Builder.SelectQueryBuilder -> option (list Row * nat).

Record Paginated : Type := {
  data : list Row;
  meta : ResponseMeta;
}.

(** [PaginationHelper.paginateWithTypeORM(queryBuilder, paginationDto,
    configService)]; [None] is the rejection of the awaited query. *)
Definition paginateWithTypeORM (queryBuilder : Builder.SelectQueryBuilder)
    (dto : PaginationRequest.PaginationRequestDto)
    (configService : option ConfigService) : option Paginated :=
  let l := getPaginationLimits dto configService in
  let queryBuilder := Builder.take (limit l) (Builder.skip (offset l) queryBuilder) in
  match getManyAndCount queryBuilder with
  | None => None
  | Some (data, count) =>
      let total := of_nat count in
      let totalPages := ceil (div total (limit l)) in
      let from := if gt total zero then add (offset l) one else zero in
      let to := min (add (offset l) (limit l)) total in
      Some {| data := data;
              meta := {| current_page := page l; last_page := totalPages;
                         per_page := limit l; total := total;
                         meta_from := from; meta_to := to |} |}
  end.

End WithRepository.

Arguments data {Row}.
Arguments meta {Row}.
Arguments paginateWithTypeORM {Row}.

End Pagination.

(** ** ResponseHelper: the [meta] object of a paginated response

    Of [src/components/http/response-helper.ts] only the [meta] property
    of the response body is embedded; the status code, the message and
    the items do not bear on it. *)

Module ResponseHelper.

Import Number Pagination.

(** [ResponseHelper.paginate(res, responseCode, items, currentPage,
    lastPage, perPage, total)] *)
Definition paginate (currentPage lastPage perPage total : number)
    : ResponseMeta :=
  let from :=
    if gt total zero then add (mul (sub currentPage one) perPage) one
    else zero in
  let to := min (mul currentPage perPage) total in
  {| current_page := max one currentPage;
     last_page := max one lastPage;
     per_page := perPage;
     total := total;
     meta_from := from;
     meta_to := to |}.

(** [ResponseHelper.paginateWithMeta(res, responseCode, items, meta)],
    where [meta] carries the result of [calculateMeta] and the total. *)
Definition paginateWithMeta (m : Meta) (total : number) : ResponseMeta :=
  {| current_page := currentPage m;
     last_page := totalPages m;
     per_page := perPage m;
     total := total;
     meta_from := from m;
     meta_to := to m |}.

End ResponseHelper.

(** ** A reference reader for JSON texts

    The JSON grammar of RFC 8259, which [JSON.parse] accepts and outside
    of which it throws.  Number and string lexemes are kept as written,
    and [stringify] prints without white space.  The search helper is
    parametric in the runtime's [JSON]; this instance is what the examples
    run it with. *)

Module Json.

Set Warnings "-register-all".

Inductive value : Type :=
  | Null
  | Bool (b : bool)
  | Num (lexeme : string)
  | Str (raw : string)
  | Arr (items : list value)
  | Obj (members : list (string * value)).

Definition quote : ascii := ascii_of_nat 34.
Definition backslash : ascii := ascii_of_nat 92.

Definition is_ws (c : ascii) : bool :=
  let n := nat_of_ascii c in
  (n =? 32)%nat || (n =? 9)%nat || (n =? 10)%nat || (n =? 13)%nat.

Definition is_digit (c : ascii) : bool :=
  let n := nat_of_ascii c in (48 <=? n)%nat && (n <=? 57)%nat.

Definition is_hex (c : ascii) : bool :=
  let n := nat_of_ascii c in
  is_digit c || ((65 <=? n)%nat && (n <=? 70)%nat)
  || ((97 <=? n)%nat && (n <=? 102)%nat).

(** The characters that may follow a backslash, besides [u]. *)
Definition is_escape (c : ascii) : bool :=
  Ascii.eqb c quote || Ascii.eqb c backslash
  || JS.includes ["/"; "b"; "f"; "n"; "r"; "t"] (String c EmptyString).

Fixpoint skip_ws (s : string) : string :=
  match s with
  | EmptyString => EmptyString
  | String c r => if is_ws c then skip_ws r else s
  end.

(** The leading digits, and the rest. *)
Fixpoint span_digits (s : string) : string * string :=
  match s with
  | EmptyString => (EmptyString, EmptyString)
  | String c r =>
      if is_digit c
      then let (ds, r') := span_digits r in (String c ds, r')
      else (EmptyString, s)
  end.

(** [int = zero / ( digit1-9 *DIGIT )] *)
Definition read_int (s : string) : option (string * string) :=
  match s with
  | EmptyString => None
  | String c r =>
      if Ascii.eqb c "0" then Some ("0", r)
      else if is_digit c
      then let (ds, r') := span_digits r in Some (String c ds, r')
      else None
  end.

(** [frac = decimal-point 1*DIGIT], optional *)
Definition read_frac (s : string) : option (string * string) :=
  match s with
  | String c r =>
      if Ascii.eqb c "." then
        match span_digits r with
        | (EmptyString, _) => None
        | (ds, r') => Some (String c ds, r')
        end
      else Some (EmptyString, s)
  | EmptyString => Some (EmptyString, s)
  end.

(** [exp = e \[ minus / plus \] 1*DIGIT], optional *)
Definition read_exp (s : string) : option (string * string) :=
  match s with
  | String c r =>
      if Ascii.eqb c "e" || Ascii.eqb c "E" then
        let (sign, r1) :=
          match r with
          | String d r1 =>
              if Ascii.eqb d "+" || Ascii.eqb d "-"
              then (String d EmptyString, r1) else (EmptyString, r)
          | EmptyString => (EmptyString, r)
          end in
        match span_digits r1 with
        | (EmptyString, _) => None
        | (ds, r2) => Some (String c (sign +:+ ds), r2)
        end
      else Some (EmptyString, s)
  | EmptyString => Some (EmptyString, s)
  end.

(** [number = \[ minus \] int \[ frac \] \[ exp \]] *)
Definition read_number (s : string) : option (string * string) :=
  let (sign, r0) :=
    match s with
    | String c r => if Ascii.eqb c "-" then (String c EmptyString, r)
                    else (EmptyString, s)
    | EmptyString => (EmptyString, s)
    end in
  match read_int r0 with
  | None => None
  | Some (i, r1) =>
      match read_frac r1 with
      | None => None
      | Some (f, r2) =>
          match read_exp r2 with
          | None => None
          | Some (e, r3) => Some (sign +:+ i +:+ f +:+ e, r3)
          end
      end
  end.

(** The characters of a string after its opening quote, up to the closing
    quote: no control characters, and only well-formed escapes. *)
Fixpoint read_chars (s : string) : option (string * string) :=
  match s with
  | EmptyString => None
  | String c r =>
      if Ascii.eqb c quote then Some (EmptyString, r)
      else if Ascii.eqb c backslash then
        match r with
        | EmptyString => None
        | String e r1 =>
            if is_escape e then
              match read_chars r1 with
              | Some (t, r2) => Some (String c (String e t), r2)
              | None => None
              end
            else if Ascii.eqb e "u" then
              match r1 with
              | String h1 (String h2 (String h3 (String h4 r2))) =>
                  if is_hex h1 && is_hex h2 && is_hex h3 && is_hex h4 then
                    match read_chars r2 with
                    | Some (t, r3) =>
                        Some (String c (String e (String h1 (String h2
                               (String h3 (String h4 t))))), r3)
                    | None => None
                    end
                  else None
              | _ => None
              end
            else None
        end
      else if (nat_of_ascii c <? 32)%nat then None
      else
        match read_chars r with
        | Some (t, r') => Some (String c t, r')
        | None => None
        end
  end.

(** [s] starts with [p]: the rest after [p]. *)
Fixpoint strip_prefix (p s : string) : option string :=
  match p, s with
  | EmptyString, _ => Some s
  | String a p', String b s' =>
      if Ascii.eqb a b then strip_prefix p' s' else None
  | String _ _, EmptyString => None
  end.

Definition literal (p : string) (v : value) (s : string) : option (value * string) :=
  match strip_prefix p s with
  | Some r => Some (v, r)
  | None => None
  end.

(** [value], [elements] after an opening bracket, and [members] after an
    opening brace; [fuel] bounds the nesting and the number of items. *)
Fixpoint read_value (fuel : nat) (s : string) : option (value * string) :=
  match fuel with
  | O => None
  | S fuel' =>
      match skip_ws s with
      | EmptyString => None
      | String c r =>
          if Ascii.eqb c "n" then literal "null" Null (String c r)
          else if Ascii.eqb c "t" then literal "true" (Bool true) (String c r)
          else if Ascii.eqb c "f" then literal "false" (Bool false) (String c r)
          else if Ascii.eqb c quote then
            match read_chars r with
            | Some (t, r') => Some (Str t, r')
            | None => None
            end
          else if Ascii.eqb c "[" then
            match skip_ws r with
            | String d r' =>
                if Ascii.eqb d "]" then Some (Arr [], r')
                else
                  match read_elements fuel' r with
                  | Some (vs, r'') => Some (Arr vs, r'')
                  | None => None
                  end
            | EmptyString => None
            end
          else if Ascii.eqb c "{" then
            match skip_ws r with
            | String d r' =>
                if Ascii.eqb d "}" then Some (Obj [], r')
                else
                  match read_members fuel' r with
                  | Some (ms, r'') => Some (Obj ms, r'')
                  | None => None
                  end
            | EmptyString => None
            end
          else
            match read_number (String c r) with
            | Some (l, r') => Some (Num l, r')
            | None => None
            end
      end
  end
with read_elements (fuel : nat) (s : string) : option (list value * string) :=
  match fuel with
  | O => None
  | S fuel' =>
      match read_value fuel' s with
      | None => None
      | Some (v, r) =>
          match skip_ws r with
          | String d r' =>
              if Ascii.eqb d "," then
                match read_elements fuel' r' with
                | Some (vs, r'') => Some (v :: vs, r'')
                | None => None
                end
              else if Ascii.eqb d "]" then Some ([v], r')
              else None
          | EmptyString => None
          end
      end
  end
with read_members (fuel : nat) (s : string)
    : option (list (string * value) * string) :=
  match fuel with
  | O => None
  | S fuel' =>
      match skip_ws s with
      | String q r =>
          if Ascii.eqb q quote then
            match read_chars r with
            | None => None
            | Some (k, r1) =>
                match skip_ws r1 with
                | String d r2 =>
                    if Ascii.eqb d ":" then
                      match read_value fuel' r2 with
                      | None => None
                      | Some (v, r3) =>
                          match skip_ws r3 with
                          | String e r4 =>
                              if Ascii.eqb e "," then
                                match read_members fuel' r4 with
                                | Some (ms, r5) => Some ((k, v) :: ms, r5)
                                | None => None
                                end
                              else if Ascii.eqb e "}" then Some ([(k, v)], r4)
                              else None
                          | EmptyString => None
                          end
                      end
                    else None
                | EmptyString => None
                end
            end
          else None
      | EmptyString => None
      end
  end.

(** [JSON.parse(text)]: one value between optional white space. *)
Definition parse (text : string) : option value :=
  match read_value (2 * String.length text + 2) text with
  | Some (v, r) =>
      match skip_ws r with
      | EmptyString => Some v
      | String _ _ => None
      end
  | None => None
  end.

Fixpoint join (sep : string) (l : list string) : string :=
  match l with
  | [] => EmptyString
  | [x] => x
  | x :: l' => x +:+ sep +:+ join sep l'
  end.

Definition quoted (raw : string) : string :=
  String quote (raw +:+ String quote EmptyString).

(** [JSON.stringify(value)] *)
Fixpoint stringify (v : value) : string :=
  match v with
  | Null => "null"
  | Bool true => "true"
  | Bool false => "false"
  | Num l => l
  | Str raw => quoted raw
  | Arr items => "[" +:+ join "," (map stringify items) +:+ "]"
  | Obj members =>
      "{" +:+ join ","
                (map (fun m => quoted (fst m) +:+ ":" +:+ stringify (snd m))
                   members)
          +:+ "}"
  end.

End Json.

(** ** Requests used in the examples *)

Module Fixtures.

Definition filter (field op : string) (q s e l : option string)
    : PaginationFilterDto :=
  {| search_by := field; filter_type := op; search_query := q;
     start_value := s; end_value := e; values_list := l |}.

(** [{ search_by: 'name', filter_type: 'equal', search_query: 'admin',
       values_list: 'a,b' }]: an operand the operator does not use. *)
Definition equal_with_list : PaginationFilterDto :=
  filter "name" "equal" (Some "admin") None None (Some "a,b").

(** [{ search_by: 'password', filter_type: 'like', search_query: 'x' }] *)
Definition like_password : PaginationFilterDto :=
  filter "password" "like" (Some "x") None None None.

(** [{ search_by: 'name', filter_type: 'in' }]: no [values_list]. *)
Definition in_without_list : PaginationFilterDto :=
  filter "name" "in" None None None None.

Definition user_fields : list string :=
  ["id"; "name"; "email"; "createdAt"; "updatedAt"].

(** A fresh builder and a silent console. *)
Definition start : Builder.World :=
  {| Builder.queryBuilder :=
       {| Builder.wheres := []; Builder.order := None;
          Builder.skipped := None; Builder.taken := None |};
     Builder.console := [] |}.

Definition query (sort order : option string)
    (fs : option (list PaginationFilterDto)) : QueryRequest.QueryRequestBodyDto :=
  {| QueryRequest.search := None; QueryRequest.sort_by := sort;
     QueryRequest.sort_order := order; QueryRequest.filters := fs |}.

(** The search helper with the reference JSON reader. *)
Definition compile := Search.compile_filter Json.parse Json.stringify.
Definition search := Search.buildSearchQuery Json.parse Json.stringify.

(** [{ search_by: 'role', filter_type: 'in', values_list: 'a,,b' }] *)
Definition in_with_gap : PaginationFilterDto :=
  filter "role" "in" None None None (Some "a,,b").

(** [{ search_by: 'role', filter_type: 'in', values_list: 'a, b ,c' }] *)
Definition in_with_blanks : PaginationFilterDto :=
  filter "role" "in" None None None (Some "a, b ,c").

(** [{ search_by: 'password', filter_type: 'json_contains',
       search_query: '{bad' }], on a field outside the allow-list. *)
Definition json_on_password : PaginationFilterDto :=
  filter "password" "json_contains" (Some "{bad") None None None.

(** [{ search_by: 'name', filter_type: 'json_contains', search_query: '{bad' }] *)
Definition json_bad : PaginationFilterDto :=
  filter "name" "json_contains" (Some "{bad") None None None.

(** [{ search_by: 'name', filter_type: 'json_contains', search_query: '' }] *)
Definition json_empty : PaginationFilterDto :=
  filter "name" "json_contains" (Some EmptyString) None None None.

(** [{ search_by: 'name', filter_type: 'json_contained' }]: no
    [search_query]. *)
Definition json_absent : PaginationFilterDto :=
  filter "name" "json_contained" None None None None.

(** [{ search_by: 'name', filter_type: 'json_extract', search_query: 'a' }] *)
Definition json_path : PaginationFilterDto :=
  filter "name" "json_extract" (Some "a") None None None.

(** [{ search_by: 'email', filter_type: 'equal', search_query: 'a@b.c' }] *)
Definition equal_email : PaginationFilterDto :=
  filter "email" "equal" (Some "a@b.c") None None None.

End Fixtures.

(** ** Notions used to state further properties of the helpers *)

Module Notions.

(** What [validateFilters] tests of one filter: the field is in the
    allow-list, the operator is a member of the enum, and no required
    operand is missing. *)
Definition filter_ok (al : list string) (f : PaginationFilterDto) : bool :=
  JS.includes al (search_by f)
  && match FilterType_of_string (filter_type f) with
     | Some t => negb (operands_missing t f)
     | None => false
     end.

(** The parameter names the compiler uses at one position of the filter
    list: [param_<i>], [start_param_<i>] and [end_param_<i>]. *)
Definition param_names (index : nat) : gset string :=
  {[ "param_" +:+ pretty index;
     "start_" +:+ ("param_" +:+ pretty index);
     "end_" +:+ ("param_" +:+ pretty index) ]}.

(** The SQL that [buildSearchQuery] writes around a qualified column,
    one entry for each distinct text passed to [andWhere]: what stands
    before the column and what follows it, with the parameter name of the
    filter. *)
Definition condition_shapes (paramName : string) : list (string * string) :=
  [ (EmptyString, " = :" +:+ paramName);
    (EmptyString, " != :" +:+ paramName);
    (EmptyString, " LIKE :" +:+ paramName);
    ("LOWER(", ") LIKE LOWER(:" +:+ paramName +:+ ")");
    (EmptyString, " NOT LIKE :" +:+ paramName);
    ("LOWER(", ") NOT LIKE LOWER(:" +:+ paramName +:+ ")");
    (EmptyString, " > :" +:+ paramName);
    (EmptyString, " >= :" +:+ paramName);
    (EmptyString, " < :" +:+ paramName);
    (EmptyString, " <= :" +:+ paramName);
    (EmptyString,
     " BETWEEN :start_" +:+ paramName +:+ " AND :end_" +:+ paramName);
    (EmptyString,
     " NOT BETWEEN :start_" +:+ paramName +:+ " AND :end_" +:+ paramName);
    (EmptyString, " IN (:..." +:+ paramName +:+ ")");
    (EmptyString, " NOT IN (:..." +:+ paramName +:+ ")");
    (EmptyString, " IS NULL");
    (EmptyString, " IS NOT NULL");
    (EmptyString, " REGEXP :" +:+ paramName);
    ("LOWER(", ") REGEXP LOWER(:" +:+ paramName +:+ ")");
    (EmptyString, " @> :" +:+ paramName);
    (EmptyString, " <@ :" +:+ paramName);
    (EmptyString, " @> ARRAY[:" +:+ paramName +:+ "]");
    (EmptyString, " && ARRAY[:..." +:+ paramName +:+ "]") ].

(** The whole condition is one of these shapes around the column
    [alias.field], with the parameter name of position [index]: the
    column and nothing else of the request is part of the SQL text. *)
Definition condition_on (alias field : string) (index : nat)
    (condition : string) : bool :=
  existsb
    (fun shape =>
       String.eqb condition
         (fst shape +:+ (alias +:+ "." +:+ field) +:+ snd shape))
    (condition_shapes ("param_" +:+ pretty index)).

(** Predicate [p] was added for the filter at position [k] of a list
    [fs] whose first element stands at position [i]. *)
Definition added_by (al : list string) (alias : string)
    (fs : list PaginationFilterDto) (i : nat)
    (p : Builder.Predicate) (k : nat) : Prop :=
  i <= k
  /\ exists f, fs !! (k - i) = Some f
     /\ Search.field_guard al (search_by f) = true
     /\ condition_on alias (search_by f) k (Builder.condition p) = true
     /\ dom (Builder.parameters p) ⊆ param_names k.

(** The operators whose case in the compiler does not add a predicate
    unconditionally: the structured-value ones. *)
Definition is_json_operator (t : FilterType) : bool :=
  match t with
  | JSON_CONTAINS | JSON_CONTAINED | JSON_EXTRACT | JSON_EXTRACT_TEXT => true
  | _ => false
  end.

(** The operators that wrap the value in wildcards on both sides. *)
Definition wraps_both (t : FilterType) : bool :=
  match t with
  | LIKE | ILIKE | NOT_LIKE | NOT_ILIKE | CONTAINS | ICONTAINS => true
  | _ => false
  end.

End Notions.

(** ** Integer arithmetic, for stating what the calculators do on integers *)

Module Integers.

(** The quotient rounded up. *)
Definition ceil_div (t l : Z) : Z := (- ((- t) / l))%Z.

(** [calculateMeta] read over the integers. *)
Definition currentPage_Z (t p l : Z) : Z := Z.max 1 (Z.min p (ceil_div t l)).

Definition from_Z (t p l : Z) : Z :=
  if (0 <? t)%Z then ((currentPage_Z t p l - 1) * l + 1)%Z else 0%Z.

Definition to_Z (t p l : Z) : Z := Z.min (currentPage_Z t p l * l) t.

(** [Number.MAX_SAFE_INTEGER]: up to here every integer is a double, and
    sums, differences and products of integers that stay in this range
    are computed without rounding. *)
Definition MAX_SAFE_INTEGER : Z := (2 ^ 53 - 1)%Z.

End Integers.

(** ** PaginationHelper: the wrappers and the legacy path *)

Module Helper.

Import Number Pagination.

Section WithJSON.

Context {JsonValue : Type}.
Variable JSON_parse : string -> option JsonValue.
Variable JSON_stringify : JsonValue -> string.

(** [PaginationHelper.buildWhereClause(queryBuilder, paginationDto,
    allowedFields, alias)]; [paginationDto.filters || []] is the array, or
    the empty one when the property is absent. *)
Definition buildWhereClause (w : Builder.World)
    (dto : PaginationRequest.PaginationRequestDto)
    (allowedFields : list string) (alias : string) : Builder.World :=
  let searchQuery :=
    {| QueryRequest.search := None;
       QueryRequest.sort_by := PaginationRequest.sort_by dto;
       QueryRequest.sort_order := PaginationRequest.sort_order dto;
       QueryRequest.filters :=
         Some (default [] (PaginationRequest.filters dto)) |} in
  Search.buildSearchQuery JSON_parse JSON_stringify w searchQuery
    allowedFields alias.

End WithJSON.

(** [PaginationHelper.buildOrderClause(queryBuilder, paginationDto,
    allowedSortFields, alias)] *)
Definition buildOrderClause (w : Builder.World)
    (dto : PaginationRequest.PaginationRequestDto)
    (allowedSortFields : list string) (alias : string) : Builder.World :=
  let searchQuery :=
    {| QueryRequest.search := None;
       QueryRequest.sort_by := PaginationRequest.sort_by dto;
       QueryRequest.sort_order := PaginationRequest.sort_order dto;
       QueryRequest.filters := None |} in
  Search.buildSortQuery w searchQuery allowedSortFields alias.

Section WithSequelize.

(** [repository.findAndCountAll({ where, order, limit, offset })] belongs
    to the repository passed in: it resolves to a count and rows, or
    rejects ([None]).  The where and order clauses are passed on as they
    come. *)
Variable Row WhereClause OrderClause : Type.
Variable findAndCountAll :
  WhereClause -> OrderClause -> number -> number -> option (nat * list Row).

(** [PaginationHelper.paginate(repository, paginationDto, whereClause,
    orderClause, defaultPageSize)], the deprecated path. *)
Definition paginate (dto : PaginationRequest.PaginationRequestDto)
    (whereClause : WhereClause) (orderClause : OrderClause)
    (defaultPageSize : number) : option (Paginated Row) :=
  let page := or_else (PaginationRequest.page dto) one in
  let perPage := or_else (PaginationRequest.per_page dto) defaultPageSize in
  let offset := mul (sub page one) perPage in
  match findAndCountAll whereClause orderClause perPage offset with
  | None => None
  | Some (count, rows) =>
      let count := of_nat count in
      let totalPages := ceil (div count perPage) in
      let from := if gt count zero then add offset one else zero in
      let to := min (add offset perPage) count in
      Some {| data := rows;
              meta := {| current_page := page; last_page := totalPages;
                         per_page := perPage; total := count;
                         meta_from := from; meta_to := to |} |}
  end.

End WithSequelize.

Arguments paginate {Row WhereClause OrderClause}.

End Helper.

(** ** UsersDao.getUsersWithPagination

    [src/Module/users/dao/users.dao.ts].  [String.prototype.toUpperCase]
    on arbitrary text leaves the code units below 256 and is a parameter
    here. *)

Module UsersDao.

Import Number Builder.

Section WithRuntime.

Context {JsonValue : Type}.
Variable JSON_parse : string -> option JsonValue.
Variable JSON_stringify : JsonValue -> string.
Variable toUpperCase : string -> string.
Variable User : Type.
Variable getManyAndCount : SelectQueryBuilder -> option (list User * nat).

(** [this.usersRepository.createQueryBuilder('user')] *)
Definition createQueryBuilder : SelectQueryBuilder :=
  {| wheres := []; order := None; skipped := None; taken := None |}.

(** [queryBuilder.where(condition)]: sets the condition, replacing what
    was there. *)
Definition where_ (c : string) (qb : SelectQueryBuilder) : SelectQueryBuilder :=
  {| wheres := [ {| condition := c; parameters := ∅ |} ];
     order := order qb; skipped := skipped qb; taken := taken qb |}.

Definition searchable : list string :=
  ["id"; "name"; "email"; "createdAt"; "updatedAt"].

(** The predicate [where('user.deletedAt IS NULL')] sets. *)
Definition soft_delete : Predicate :=
  {| condition := "user.deletedAt IS NULL"; parameters := ∅ |}.

(** The [paginationDto] argument [{ filters: searchQuery }]. *)
Definition only_filters (searchQuery : list PaginationFilterDto)
    : PaginationRequest.PaginationRequestDto :=
  {| PaginationRequest.page := None; PaginationRequest.per_page := None;
     PaginationRequest.sort_by := None; PaginationRequest.sort_order := None;
     PaginationRequest.filters := Some searchQuery |}.

(** The query as it stands when [getManyAndCount] is called, and the
    console as the compiler leaves it. *)
Definition prepare (console : list ConsoleCall) (limit offset : number)
    (searchQuery : list PaginationFilterDto) (sortField sortOrder : string)
    : World :=
  let w0 := {| queryBuilder := where_ "user.deletedAt IS NULL" createQueryBuilder;
               console := console |} in
  let w1 :=
    match searchQuery with
    | [] => w0
    | _ :: _ =>
        Helper.buildWhereClause JSON_parse JSON_stringify w0
          (only_filters searchQuery) searchable "user"
    end in
  let w2 :=
    if JS.truthy_string sortField && JS.truthy_string sortOrder
    then on_builder (orderBy ("user." +:+ sortField) (toUpperCase sortOrder)) w1
    else on_builder (orderBy "user.createdAt" "DESC") w1 in
  on_builder (take limit) (on_builder (skip offset) w2).

(** [UsersDao.getUsersWithPagination(limit, offset, searchQuery,
    sortField, sortOrder)]: the rows and the count, or rejection, next
    to the console. *)
Definition getUsersWithPagination (console : list ConsoleCall)
    (limit offset : number) (searchQuery : list PaginationFilterDto)
    (sortField sortOrder : string)
    : option (list User * nat) * list ConsoleCall :=
  let w := prepare console limit offset searchQuery sortField sortOrder in
  (getManyAndCount (queryBuilder w), Builder.console w).

End WithRuntime.

End UsersDao.

(** ** UsersService.findAllWithPagination

    [src/Module/users/service/users.service.ts].  The DAO is the one
    above; [toLowerCase] and [toUpperCase] are parameters, as is
    [mapToResponseDto]'s target type. *)

Module UsersService.

Import Number Builder Pagination.

(** [errors.join(', ')] *)
Fixpoint join (sep : string) (l : list string) : string :=
  match l with
  | [] => EmptyString
  | [x] => x
  | x :: l' => x +:+ sep +:+ join sep l'
  end.

Inductive Exception : Type :=
  | BadRequestException (message : string)
  | QueryFailed.

Section WithRuntime.

Context {JsonValue : Type}.
Variable JSON_parse : string -> option JsonValue.
Variable JSON_stringify : JsonValue -> string.
Variable toLowerCase toUpperCase : string -> string.
Variable User UserResponseDto : Type.
Variable mapToResponseDto : User -> UserResponseDto.
Variable getManyAndCount : SelectQueryBuilder -> option (list User * nat).

Definition allowedSearchFields : list string :=
  ["id"; "name"; "email"; "createdAt"; "updatedAt"].

(** The object [findAllWithPagination] resolves to. *)
Record Listing : Type := {
  rows : list UserResponseDto;
  count : number;
  totalPages : number;
  currentPage : number;
  perPage : number;
  from : number;
  to : number;
}.

(** What a call leaves behind: the console calls of the compiler, the
    error the [catch] block logs with [console.error] before throwing it
    again, and the result. *)
Record Outcome : Type := {
  compiler_console : list ConsoleCall;
  logged : option Exception;
  result : Exception + Listing;
}.

Definition throw (console : list ConsoleCall) (e : Exception) : Outcome :=
  {| compiler_console := console; logged := Some e; result := inl e |}.

(** [UsersService.findAllWithPagination(paginationDto)] *)
Definition findAllWithPagination (console : list ConsoleCall)
    (dto : PaginationRequest.PaginationRequestDto) : Outcome :=
  let errors :=
    match PaginationRequest.filters dto with
    | Some fs => Validator.validateFilters fs allowedSearchFields
    | None => []
    end in
  match errors with
  | _ :: _ =>
      throw console
        (BadRequestException ("Invalid filters: " +:+ join ", " errors))
  | [] =>
      let l := getPaginationLimits dto None in
      let searchQuery := default [] (PaginationRequest.filters dto) in
      let sortField :=
        JS.or_else (PaginationRequest.sort_by dto) "createdAt" in
      let sortOrder :=
        toLowerCase (JS.or_else (PaginationRequest.sort_order dto) "desc") in
      match UsersDao.getUsersWithPagination JSON_parse JSON_stringify
              toUpperCase User getManyAndCount console
              (limit l) (offset l) searchQuery sortField sortOrder with
      | (None, console') => throw console' QueryFailed
      | (Some (users, n), console') =>
          let meta := calculateMeta (of_nat n) (page l) (limit l) in
          {| compiler_console := console';
             logged := None;
             result :=
               inr {| rows := map mapToResponseDto users;
                      count := of_nat n;
                      totalPages := Pagination.totalPages meta;
                      currentPage := Pagination.currentPage meta;
                      perPage := Pagination.perPage meta;
                      from :=
                        add (mul (sub (Pagination.currentPage meta) one)
                               (Pagination.perPage meta)) one;
                      to :=
                        min (mul (Pagination.currentPage meta)
                               (Pagination.perPage meta)) (of_nat n) |} |}
      end
  end.

End WithRuntime.

End UsersService.

(** ** Requests the users service accepts *)

Module Accepted.

(** No filters, or only well-formed ones over the service's searchable
    fields. *)
Definition accepted (dto : PaginationRequest.PaginationRequestDto) : Prop :=
  match PaginationRequest.filters dto with
  | Some fs =>
      Forall (fun f =>
                Notions.filter_ok UsersService.allowedSearchFields f = true) fs
  | None => True
  end.

End Accepted.

(** ** Sample requests and stores *)

Module Samples.

Import Fixtures.

Definition request (page per_page : option Z) (sort order : option string)
    (fs : option (list PaginationFilterDto))
    : PaginationRequest.PaginationRequestDto :=
  {| PaginationRequest.page := Number.of_Z <$> page;
     PaginationRequest.per_page := Number.of_Z <$> per_page;
     PaginationRequest.sort_by := sort;
     PaginationRequest.sort_order := order;
     PaginationRequest.filters := fs |}.

(** [{ search_by: 'name', filter_type: 'like', search_query: 'ann' }] *)
Definition like_name : PaginationFilterDto :=
  filter "name" "like" (Some "ann") None None None.

(** [{ search_by: 'name', filter_type: 'like' }]: no [search_query]. *)
Definition like_without_value : PaginationFilterDto :=
  filter "name" "like" None None None None.

(** [{ search_by: 'name', filter_type: 'fuzzy', search_query: 'ann' }]:
    an operator outside the enum. *)
Definition fuzzy_name : PaginationFilterDto :=
  filter "name" "fuzzy" (Some "ann") None None None.

(** A TypeORM store that answers every query with the same rows and
    count. *)
Definition store {Row : Type} (rows : list Row) (count : nat)
    : Builder.SelectQueryBuilder -> option (list Row * nat) :=
  fun _ => Some (rows, count).

(** The same for [repository.findAndCountAll]. *)
Definition repository {Row : Type} (rows : list Row) (count : nat)
    : unit -> unit -> Number.number -> Number.number
      -> option (nat * list Row) :=
  fun _ _ _ _ => Some (count, rows).

(** The users service over the reference JSON reader, with users and
    their response objects both given by name. *)
Definition users_service (rows : list string) (count : nat) :=
  UsersService.findAllWithPagination Json.parse Json.stringify
    JS.toLowerCase JS.toUpperCase string string (fun u => u)
    (store rows count).

End Samples.

(** * Properties *)

(** ** Strings *)

Lemma includes_elem_of (l : list string) (x : string) :
  JS.includes l x = true <-> x ∈ l.
Proof.
  induction l as [|y l IH]; simpl.
  - split; [discriminate | intros H; inversion H].
  - destruct (String.eqb y x) eqn:E.
    + apply String.eqb_eq in E. subst. split; [intros _; left | done].
    + apply String.eqb_neq in E. rewrite IH. split.
      * intros H. by right.
      * intros H. inversion H; subst; [congruence | done].
Qed.

Lemma includes_not_elem_of (l : list string) (x : string) :
  JS.includes l x = false <-> x ∉ l.
Proof.
  rewrite <- includes_elem_of. destruct (JS.includes l x); split; try done.
Qed.

Lemma FilterType_of_string_value (t : FilterType) :
  FilterType_of_string (FilterType_value t) = Some t.
Proof. by destruct t. Qed.

Lemma FilterType_of_string_Some (s : string) (t : FilterType) :
  FilterType_of_string s = Some t -> s = FilterType_value t.
Proof.
  unfold FilterType_of_string. intros H.
  apply find_some in H as [_ H]. apply String.eqb_eq in H. done.
Qed.

(** ** The validator *)

Section ValidatorFacts.

Import Validator.

Lemma push_filters m h : filters (push m h) = filters h.
Proof. done. Qed.

Lemma push_allowed m h : allowedFields (push m h) = allowedFields h.
Proof. done. Qed.

Lemma push_errors m h : errors (push m h) = errors h ++ [m].
Proof. done. Qed.

(** The callback only pushes to [errors]. *)
Lemma validate_filter_frame f i h :
  filters (validate_filter f i h) = filters h
  /\ allowedFields (validate_filter f i h) = allowedFields h.
Proof.
  unfold validate_filter, check_operands, check_field.
  repeat case_match; done.
Qed.

(** What the callback pushes depends on the heap through [allowedFields]
    only. *)
Lemma validate_filter_errors f i h :
  errors (validate_filter f i h)
  = errors h ++ filter_errors (allowedFields h) i f.
Proof.
  unfold filter_errors, validate_filter, check_operands, check_field, enter.
  simpl. destruct (JS.includes (allowedFields h) (search_by f)); simpl;
    repeat case_match; simpl; rewrite ?app_nil_r, <- ?app_assoc; done.
Qed.

Lemma filter_errors_split al i f t :
  FilterType_of_string (filter_type f) = Some t ->
  filter_errors al i f = field_errors al i f ++ operand_errors t i f.
Proof.
  intros Ht.
  unfold filter_errors, validate_filter, check_operands, check_field,
    field_errors, operand_errors, operands_missing, operand_message, enter.
  rewrite Ht. simpl.
  destruct (JS.includes al (search_by f)); destruct t; simpl;
    repeat case_match; done.
Qed.

Lemma filter_errors_unknown al i f :
  FilterType_of_string (filter_type f) = None ->
  filter_errors al i f = field_errors al i f ++ [msg_unknown i f].
Proof.
  intros Ht.
  unfold filter_errors, validate_filter, check_operands, check_field,
    field_errors, enter.
  rewrite Ht. simpl. destruct (JS.includes al (search_by f)); done.
Qed.


Lemma errors_from_cons al i f fs :
  errors_from al i (f :: fs) = filter_errors al i f ++ errors_from al (S i) fs.
Proof.
  unfold errors_from. rewrite imap_cons. simpl.
  rewrite Nat.add_0_r. do 2 f_equal.
  apply imap_ext. intros k x _. simpl. f_equal. lia.
Qed.

Lemma errors_from_app al i fs gs :
  errors_from al i (fs ++ gs)
  = errors_from al i fs ++ errors_from al (i + length fs) gs.
Proof.
  revert i. induction fs as [|f fs IH]; intros i; simpl.
  - rewrite Nat.add_0_r. done.
  - rewrite !errors_from_cons, IH, <- app_assoc.
    do 3 f_equal. lia.
Qed.

(** [forEach] visits the positions [i], [i + 1], ... and appends what
    each filter contributes. *)
Lemma forEach_errors n : forall i h,
  i + n = length (filters h) ->
  errors (forEach validate_filter n i h)
  = errors h ++ errors_from (allowedFields h) i (drop i (filters h)).
Proof.
  induction n as [|n IH]; intros i h Hlen; simpl.
  - rewrite drop_ge by lia. unfold errors_from. simpl.
    by rewrite app_nil_r.
  - destruct (filters h !! i) as [f|] eqn:Hf.
    + destruct (validate_filter_frame f i h) as [Hfs Hal].
      rewrite IH by (rewrite Hfs; lia).
      rewrite Hfs, Hal, validate_filter_errors.
      rewrite (drop_S _ _ _ Hf), errors_from_cons, app_assoc. done.
    + apply lookup_ge_None in Hf. lia.
Qed.

Lemma validateFilters_unfold fs al :
  validateFilters fs al = errors_from al 0 fs.
Proof.
  unfold validateFilters, run. rewrite forEach_errors by (simpl; lia).
  simpl. by rewrite drop_0.
Qed.

(** The list of errors, cut at a position. *)
Lemma validateFilters_at fs al i f :
  fs !! i = Some f ->
  validateFilters fs al
  = validateFilters (take i fs) al ++ filter_errors al i f
      ++ errors_from al (S i) (drop (S i) fs).
Proof.
  intros Hf. rewrite !validateFilters_unfold.
  rewrite <- (take_drop_middle fs i f Hf) at 1.
  rewrite errors_from_app, errors_from_cons. simpl.
  rewrite length_take_le by (apply lookup_lt_Some in Hf; lia). done.
Qed.

End ValidatorFacts.

Section ValidatorClaims.

Import Validator.



Lemma errors_from_origin al fs : forall i m,
  m ∈ errors_from al i fs ->
  exists k f, fs !! k = Some f /\ m ∈ filter_errors al (i + k) f.
Proof.
  induction fs as [|f fs IH]; intros i m Hm.
  - unfold errors_from in Hm. simpl in Hm. inversion Hm.
  - rewrite errors_from_cons in Hm. apply elem_of_app in Hm as [Hm|Hm].
    + exists 0, f. rewrite Nat.add_0_r. done.
    + destruct (IH _ _ Hm) as (k & g & Hk & Hg).
      exists (S k), g. split; [done|].
      replace (i + S k) with (S i + k) by lia. done.
Qed.







(** C6. A filter whose field is not in the allow-list, and whose operands
    are the ones its operator requires, contributes exactly one message to
    the result, between the messages of the filters before it and those of
    the filters after it; the message names the 1-based position and the
    field. *)
Theorem disallowed_field_one_error
    (fs : list PaginationFilterDto) (al : list string) (i : nat)
    (f : PaginationFilterDto) (t : FilterType) :
  fs !! i = Some f ->
  JS.includes al (search_by f) = false ->
  FilterType_of_string (filter_type f) = Some t ->
  operands_missing t f = false ->
  let message :=
    "Filter " +:+ pretty (i + 1) +:+ ": '" +:+ search_by f
      +:+ "' is not an allowed search field" in
  filter_errors al i f = [message]
  /\ validateFilters fs al
     = validateFilters (take i fs) al ++ [message]
         ++ errors_from al (S i) (drop (S i) fs).
Proof.
  intros Hf Hal Ht Hop message.
  assert (filter_errors al i f = [message]) as E.
  { rewrite (filter_errors_split _ _ _ t Ht).
    unfold field_errors, operand_errors. rewrite Hal, Hop. done. }
  split; [done|].
  rewrite (validateFilters_at _ _ _ _ Hf), E. done.
Qed.

Lemma disallowed_field_one_error_witness :
  validateFilters
    [Fixtures.equal_with_list; Fixtures.like_password; Fixtures.in_without_list]
    Fixtures.user_fields
  = ["Filter 2: 'password' is not an allowed search field";
     "Filter 3: 'values_list' is required for in filter"].
Proof.
  exact (proj2 (disallowed_field_one_error
                  [Fixtures.equal_with_list; Fixtures.like_password;
                   Fixtures.in_without_list]
                  Fixtures.user_fields 1 Fixtures.like_password LIKE
                  eq_refl eq_refl eq_refl eq_refl)).
Defined.

(** C3, as the code has it.  For a filter with a recognised operator the
    validator's messages are the field message, if the field is not
    allowed, followed by one message if a required operand is missing
    (absent or empty): [search_query] for the single-value operators,
    [start_value] or [end_value] for the range operators, [values_list] for
    the list operators.  Operands the operator does not require are not
    looked at: with an allowed field and no required operand missing, the
    filter contributes nothing. *)
Theorem missing_operand_reported
    (fs : list PaginationFilterDto) (al : list string) (i : nat)
    (f : PaginationFilterDto) (t : FilterType) :
  fs !! i = Some f ->
  FilterType_of_string (filter_type f) = Some t ->
  filter_errors al i f = field_errors al i f ++ operand_errors t i f
  /\ (operands_missing t f = true ->
      operand_message t i f ∈ validateFilters fs al
      /\ operand_message t i f <> EmptyString)
  /\ (operands_missing t f = false ->
      JS.includes al (search_by f) = true ->
      filter_errors al i f = []).
Proof.
  intros Hf Ht. pose proof (filter_errors_split al i f t Ht) as E.
  split; [done|]. split.
  - intros Hm. split.
    + rewrite (validateFilters_at _ _ _ _ Hf), E.
      unfold operand_errors. rewrite Hm.
      rewrite !elem_of_app. right. left. right. by left.
    + unfold operands_missing in Hm. unfold operand_message.
      destruct (arity_of t); done.
  - intros Hm Hal. rewrite E. unfold field_errors, operand_errors.
    rewrite Hm, Hal. done.
Qed.

Lemma missing_operand_reported_witness :
  "Filter 3: 'values_list' is required for in filter"
  ∈ validateFilters
      [Fixtures.equal_with_list; Fixtures.like_password;
       Fixtures.in_without_list]
      Fixtures.user_fields.
Proof.
  exact (proj1 (proj1 (proj2 (missing_operand_reported
                  [Fixtures.equal_with_list; Fixtures.like_password;
                   Fixtures.in_without_list]
                  Fixtures.user_fields 2 Fixtures.in_without_list IN
                  eq_refl eq_refl)) eq_refl)).
Defined.

(** C3, as the specification has it, fails: the operands of this filter
    are not exactly the required ones (it carries a [values_list] that
    [equal] does not use), and the validator reports nothing. *)
Lemma extra_operand_not_reported :
  FilterType_of_string (filter_type Fixtures.equal_with_list) = Some EQUAL
  /\ operands_exact EQUAL Fixtures.equal_with_list = false
  /\ validateFilters [Fixtures.equal_with_list] Fixtures.user_fields = [].
Proof. repeat split; vm_compute; reflexivity. Qed.

End ValidatorClaims.

(** ** The search helper *)

Section SearchFacts.

Import Builder Search.

Context {JsonValue : Type}.
Variable JSON_parse : string -> option JsonValue.
Variable JSON_stringify : JsonValue -> string.

Local Abbreviation compile_filter :=
  (Search.compile_filter JSON_parse JSON_stringify).
Local Abbreviation compile_from :=
  (Search.compile_from JSON_parse JSON_stringify).
Local Abbreviation buildSearchQuery :=
  (Search.buildSearchQuery JSON_parse JSON_stringify).

Lemma split_go_length sep s : forall cur,
  length (JS.split_go sep cur s) = S (JS.count_char sep s).
Proof.
  induction s as [|c s IH]; intros cur; simpl; [done|].
  destruct (Ascii.eqb c sep); simpl; by rewrite IH.
Qed.

Lemma split_values_length s :
  length (split_values s) = S (JS.count_char "," s).
Proof. unfold split_values. rewrite length_map. apply split_go_length. Qed.

(** What the field check of the two compilers accepts. *)
Lemma field_guard_iff al s :
  field_guard al s = true
  <-> s ∈ al /\ JS.trim s <> EmptyString
      /\ s <> "NaN" /\ s <> "undefined" /\ s <> "null".
Proof.
  unfold field_guard.
  rewrite !andb_true_iff, !negb_true_iff, !String.eqb_neq, includes_elem_of.
  split; [tauto|]. intros (? & Ht & ? & ? & ?). repeat split; try done.
  destruct s; [by destruct Ht | done].
Qed.

Lemma compile_filter_rejected al alias f i w :
  field_guard al (search_by f) = false -> compile_filter al alias f i w = w.
Proof. intros H. unfold Search.compile_filter. by rewrite H. Qed.

Lemma compile_from_app al alias pre : forall post i w,
  compile_from al alias (pre ++ post) i w
  = compile_from al alias post (i + length pre) (compile_from al alias pre i w).
Proof.
  induction pre as [|f pre IH]; intros post i w; simpl.
  - by rewrite Nat.add_0_r.
  - rewrite IH. f_equal. lia.
Qed.

(** The filters around one position are compiled whatever the filter at
    the position does. *)
Lemma buildSearchQuery_at w query al alias pre f post :
  QueryRequest.filters query = Some (pre ++ f :: post) ->
  buildSearchQuery w query al alias
  = compile_from al alias post (S (length pre))
      (compile_filter al alias f (length pre) (compile_from al alias pre 0 w)).
Proof.
  intros Hq. unfold Search.buildSearchQuery. rewrite Hq.
  rewrite compile_from_app. simpl. done.
Qed.

(** C2, as the code has it.  For a list operator ([in], [not_in],
    [array_overlap]) with a non-empty [values_list]: on an accepted field
    the compiler adds one predicate that binds, under the filter's
    parameter name, the pieces of [values_list] between the commas, each
    trimmed, in order; on any other field it does nothing.  There is one
    piece more than there are commas, so empty pieces are bound as empty
    strings.  In particular ["a, b ,c"] binds [["a"; "b"; "c"]]. *)
Theorem list_values_split_and_trimmed
    (al : list string) (alias : string) (f : PaginationFilterDto)
    (i : nat) (w : World) (t : FilterType) (s : string) :
  FilterType_of_string (filter_type f) = Some t ->
  arity_of t = ValueList ->
  values_list f = Some s ->
  s <> EmptyString ->
  let values := map JS.trim (JS.split "," s) in
  (field_guard al (search_by f) = true ->
   exists sql,
      compile_filter al alias f i w
      = on_builder
          (andWhere sql {[ "param_" +:+ pretty i := PArray values ]}) w)
  /\ (field_guard al (search_by f) = false ->
      compile_filter al alias f i w = w)
  /\ length values = S (JS.count_char "," s)
  /\ split_values "a, b ,c" = ["a"; "b"; "c"].
Proof.
  intros Ht Ha Hs Hne values. split; [|split; [|split]].
  - intros Hg. unfold Search.compile_filter. rewrite Hg, Ht, Hs.
    destruct s as [|c s]; [done|].
    destruct t; try discriminate Ha; eexists; reflexivity.
  - apply compile_filter_rejected.
  - apply split_values_length.
  - reflexivity.
Qed.

(** C7, as the code has it.  For a containment operator ([json_contains],
    [json_contained]) at any position of the filter list:
    - on an accepted field, a non-empty value that [JSON.parse] rejects
      makes the compiler log ["Invalid JSON in filter: <value>"] with
      [console.error] and leave the query builder as it was;
    - on an accepted field, an absent or empty value is replaced by
      ["{}"]; that text is parsed (the runtime's [JSON.parse] reads it),
      and the predicate is added with the serialization of the parsed
      value bound;
    - on any other field the filter does nothing, whatever the value;
    - in every case the filters after it are compiled from the resulting
      state. *)
Theorem invalid_json_logged_and_skipped
    (w : World) (query : QueryRequest.QueryRequestBodyDto)
    (al : list string) (alias : string)
    (pre post : list PaginationFilterDto) (f : PaginationFilterDto)
    (t : FilterType) :
  QueryRequest.filters query = Some (pre ++ f :: post) ->
  FilterType_of_string (filter_type f) = Some t ->
  t = JSON_CONTAINS \/ t = JSON_CONTAINED ->
  let i := length pre in
  let before := compile_from al alias pre 0 w in
  let after := compile_filter al alias f i before in
  let operator :=
    match t with JSON_CONTAINS => " @> :" | _ => " <@ :" end in
  (field_guard al (search_by f) = true ->
     forall q,
       search_query f = Some q -> q <> EmptyString -> JSON_parse q = None ->
       after = console_error [AText ("Invalid JSON in filter: " +:+ q)] before
       /\ queryBuilder after = queryBuilder before)
  /\ (field_guard al (search_by f) = true ->
      search_query f = None \/ search_query f = Some EmptyString ->
      forall empty,
        JSON_parse "{}" = Some empty ->
        after
        = on_builder
          (andWhere
             ((alias +:+ "." +:+ search_by f) +:+ operator
                +:+ ("param_" +:+ pretty i))
             {[ "param_" +:+ pretty i := PString (JSON_stringify empty) ]})
          before)
  /\ (field_guard al (search_by f) = false -> after = before)
  /\ buildSearchQuery w query al alias = compile_from al alias post (S i) after.
Proof.
  intros Hq Ht Hop i before after operator.
  split; [|split; [|split]].
  - intros Hg q Hs Hne Hp.
    assert (after = console_error
                      [AText ("Invalid JSON in filter: " +:+ q)] before) as E.
    { unfold after, Search.compile_filter. rewrite Hg, Ht.
      destruct q as [|c q]; [done|].
      destruct Hop as [-> | ->]; unfold json_case; rewrite Hs; simpl;
        by rewrite Hp. }
    split; [done|]. by rewrite E.
  - intros Hg Hs empty Hempty.
    unfold after, Search.compile_filter. rewrite Hg, Ht.
    assert (JS.or_else (search_query f) "{}" = "{}") as Hor.
    { by destruct Hs as [-> | ->]. }
    destruct Hop as [-> | ->]; unfold json_case; rewrite Hor, Hempty; done.
  - apply compile_filter_rejected.
  - by apply buildSearchQuery_at.
Qed.

(** C8. For a path-extraction operator ([json_extract],
    [json_extract_text]) on an accepted field, the compiler calls
    [console.warn] with the "not fully implemented" message, so the
    console grows by that call, and the query builder is as before;
    the validator files the operator with the single-value ones and has no
    complaint once [search_query] is non-empty. *)
Theorem path_extraction_warns
    (al : list string) (alias : string) (f : PaginationFilterDto)
    (i : nat) (w : World) (t : FilterType) :
  FilterType_of_string (filter_type f) = Some t ->
  t = JSON_EXTRACT \/ t = JSON_EXTRACT_TEXT ->
  field_guard al (search_by f) = true ->
  let after := compile_filter al alias f i w in
  let warning :=
    {| level := LevelWarn;
       arguments :=
         [AText ("JSON path extraction (" +:+ filter_type f
                 +:+ ") not fully implemented. "
                 +:+ "Needs database-specific handling.")] |} in
  console after = console w ++ [warning]
  /\ queryBuilder after = queryBuilder w
  /\ arity_of t = SingleValue
  /\ (JS.truthy (search_query f) = true -> Validator.filter_errors al i f = []).
Proof.
  intros Ht Hop Hg after warning.
  assert (JS.includes al (search_by f) = true) as Hin.
  { apply includes_elem_of. by apply field_guard_iff in Hg as [? _]. }
  assert (forall u, arity_of u = SingleValue ->
            FilterType_of_string (filter_type f) = Some u ->
            JS.truthy (search_query f) = true ->
            Validator.filter_errors al i f = []) as Hv.
  { intros u Hu Hf Hq. rewrite (filter_errors_split al i f u Hf).
    unfold Validator.field_errors, Validator.operand_errors, operands_missing.
    by rewrite Hin, Hu, Hq. }
  unfold after, Search.compile_filter. rewrite Hg, Ht.
  destruct Hop as [-> | ->]; repeat split; try done;
    intros Hq; refine (Hv _ _ Ht Hq); reflexivity.
Qed.

End SearchFacts.

Section SearchExamples.

Import Builder Search Fixtures.

Lemma list_values_split_and_trimmed_witness :
  exists sql,
    compile ["role"] "user" in_with_blanks 0 start
    = on_builder
        (andWhere sql {[ "param_0" := PArray ["a"; "b"; "c"] ]}) start.
Proof.
  pose proof (list_values_split_and_trimmed Json.parse Json.stringify
                ["role"] "user" in_with_blanks 0 start IN "a, b ,c"
                eq_refl eq_refl eq_refl) as H.
  apply H; [discriminate | reflexivity].
Defined.

(** C2, as the specification has it, fails in two ways.  The empty piece
    between the two commas of ["a,,b"] is bound, where the specification
    drops it; and on a field outside the allow-list nothing is bound. *)
Lemma empty_list_entry_is_bound :
  wheres (queryBuilder (compile ["role"] "user" in_with_gap 0 start))
  = [ {| condition := "user.role IN (:...param_0)";
         parameters := {[ "param_0" := PArray ["a"; EmptyString; "b"] ]} |} ]
  /\ split_values_spec "a,,b" = ["a"; "b"]
  /\ compile user_fields "user" in_with_gap 0 start = start.
Proof. repeat split; vm_compute; reflexivity. Qed.

Lemma invalid_json_logged_and_skipped_witness :
  search start (query None None (Some [equal_email; json_bad; equal_email]))
    user_fields "user"
  = compile user_fields "user" equal_email 2
      (console_error [AText "Invalid JSON in filter: {bad"]
         (compile user_fields "user" equal_email 0 start))
  /\ compile user_fields "user" json_absent 0 start
     = on_builder
         (andWhere "user.name <@ :param_0" {[ "param_0" := PString "{}" ]})
         start.
Proof.
  split.
  - pose proof (invalid_json_logged_and_skipped Json.parse Json.stringify
                  start
                  (query None None (Some [equal_email; json_bad; equal_email]))
                  user_fields "user" [equal_email] [equal_email] json_bad
                  JSON_CONTAINS eq_refl eq_refl (or_introl eq_refl)) as H.
    destruct H as (Hbad & _ & _ & Hrun).
    destruct (Hbad eq_refl "{bad" eq_refl) as [Hlog _];
      [discriminate | reflexivity |].
    unfold search, compile. rewrite Hrun, Hlog. reflexivity.
  - pose proof (invalid_json_logged_and_skipped Json.parse Json.stringify
                  start (query None None (Some [json_absent]))
                  user_fields "user" [] [] json_absent
                  JSON_CONTAINED eq_refl eq_refl (or_intror eq_refl)) as H.
    destruct H as (_ & Habsent & _ & _).
    exact (Habsent eq_refl (or_introl eq_refl) (Json.Obj []) eq_refl).
Defined.

(** C7, as the specification has it, fails in two ways.  The value
    ["{bad"] is not a JSON text, and on a field outside the allow-list the
    compiler says nothing about it.  The empty value is not a JSON text
    either, and the compiler binds ["{}"] in its place and adds the
    predicate. *)
Lemma invalid_json_can_pass_unreported :
  Json.parse "{bad" = None
  /\ compile user_fields "user" json_on_password 0 start = start
  /\ Json.parse EmptyString = None
  /\ compile user_fields "user" json_empty 0 start
     = on_builder
         (andWhere "user.name @> :param_0" {[ "param_0" := PString "{}" ]})
         start.
Proof. repeat split; vm_compute; reflexivity. Qed.

Lemma path_extraction_warns_witness :
  console (compile user_fields "user" json_path 0 start)
  = [ {| level := LevelWarn;
         arguments :=
           [AText ("JSON path extraction (json_extract) not fully "
                   +:+ "implemented. Needs database-specific handling.")] |} ]
  /\ Validator.filter_errors user_fields 0 json_path = [].
Proof.
  pose proof (path_extraction_warns Json.parse Json.stringify user_fields
                "user" json_path 0 start JSON_EXTRACT eq_refl
                (or_introl eq_refl) eq_refl) as (Hc & _ & _ & Hv).
  split; [exact Hc | exact (Hv eq_refl)].
Defined.

End SearchExamples.

(** ** The sort compiler *)

Section SortClaims.

Import Builder Search.

Lemma valid_order_upper (o : string) :
  o ∈ validSortOrders ->
  JS.truthy_string o = true
  /\ ((o = "desc" \/ o = "DESC") /\ JS.toUpperCase o = "DESC"
      \/ (o = "asc" \/ o = "ASC") /\ JS.toUpperCase o = "ASC").
Proof.
  unfold validSortOrders. rewrite !elem_of_cons, elem_of_nil.
  intros [->|[->|[->|[->|[]]]]]; split; try reflexivity; tauto.
Qed.

(** C5, as the code has it.  With a sort field that passes the field
    check, the query is ordered by that field: descending when the order
    is exactly [desc] or [DESC], ascending when it is exactly [asc] or
    [ASC], and ascending too when it is absent or anything else.  With a
    sort field that is absent or fails the check, the query is ordered by
    [created_at], descending.  The predicates of the query are untouched,
    and the function returns in every case. *)
Theorem sort_by_checked_field_or_default
    (w : World) (query : QueryRequest.QueryRequestBodyDto)
    (al : list string) (alias : string) :
  let result := buildSortQuery w query al alias in
  let o := QueryRequest.sort_order query in
  (forall s, QueryRequest.sort_by query = Some s ->
     field_guard al s = true ->
     (o = Some "desc" \/ o = Some "DESC" ->
        order (queryBuilder result) = Some (alias +:+ "." +:+ s, "DESC"))
     /\ (o = Some "asc" \/ o = Some "ASC" ->
        order (queryBuilder result) = Some (alias +:+ "." +:+ s, "ASC"))
     /\ ((forall v, o = Some v -> v ∉ validSortOrders) ->
        order (queryBuilder result) = Some (alias +:+ "." +:+ s, "ASC")))
  /\ ((forall s, QueryRequest.sort_by query = Some s ->
         field_guard al s = false) ->
      order (queryBuilder result) = Some (alias +:+ ".created_at", "DESC"))
  /\ wheres (queryBuilder result) = wheres (queryBuilder w).
Proof.
  intros result o. unfold result, o, buildSortQuery. clear result o.
  split; [|split].
  - intros s Hs Hg. rewrite Hs, Hg.
    destruct (QueryRequest.sort_order query) as [v|].
    + destruct (JS.includes validSortOrders v) eqn:Hin.
      * apply includes_elem_of in Hin.
        destruct (valid_order_upper v Hin) as [Ht Hcase].
        rewrite Ht. simpl.
        destruct Hcase as [[Hv Hu] | [Hv Hu]]; rewrite Hu;
          (split; [|split]); try done.
        all: try (intros H; exfalso; by apply (H v)).
        all: intros [E|E]; inversion E; subst; destruct Hv; discriminate.
      * apply includes_not_elem_of in Hin.
        rewrite andb_false_r. simpl. split; [|split]; try done.
        all: intros [E|E]; inversion E; subst; exfalso; apply Hin;
          unfold validSortOrders; set_solver.
    + simpl. split; [|split]; try done; intros [E|E]; discriminate.
  - intros Hno. destruct (QueryRequest.sort_by query) as [s|]; [|done].
    by rewrite (Hno s eq_refl).
  - destruct (QueryRequest.sort_by query) as [s|]; [|done].
    destruct (field_guard al s); done.
Qed.

Lemma sort_by_checked_field_or_default_witness :
  order (queryBuilder
           (buildSortQuery Fixtures.start
              (Fixtures.query (Some "name") (Some "desc") None)
              Fixtures.user_fields "user"))
  = Some ("user.name", "DESC").
Proof.
  pose proof (sort_by_checked_field_or_default Fixtures.start
                (Fixtures.query (Some "name") (Some "desc") None)
                Fixtures.user_fields "user") as [H _].
  apply (H "name" eq_refl eq_refl). by left.
Defined.

(** C5, as the specification has it, fails: [Desc] is [desc] up to case,
    and the query is ordered ascending. *)
Lemma mixed_case_desc_orders_ascending :
  order (queryBuilder
           (buildSortQuery Fixtures.start
              (Fixtures.query (Some "name") (Some "Desc") None)
              Fixtures.user_fields "user"))
  = Some ("user.name", "ASC")
  /\ sort_order_spec (Some "Desc") = "DESC".
Proof. split; vm_compute; reflexivity. Qed.

End SortClaims.

(** ** Numbers *)

Section NumberFacts.

Import Number.
Local Open Scope Qc_scope.

Lemma Qc_ltb_lt x y : Qc_ltb x y = true <-> x < y.
Proof. unfold Qc_ltb. rewrite Qclt_alt. by destruct (x ?= y). Qed.

Lemma Qc_ltb_ge x y : Qc_ltb x y = false <-> y <= x.
Proof.
  rewrite Qcle_ngt, <- Qc_ltb_lt. by destruct (Qc_ltb x y).
Qed.

Lemma Qc_eqb_eq x y : Qc_eqb x y = true <-> x = y.
Proof. unfold Qc_eqb. rewrite Qceq_alt. by destruct (x ?= y). Qed.

Lemma Qc_eqb_neq x y : Qc_eqb x y = false <-> x <> y.
Proof. rewrite <- Qc_eqb_eq. by destruct (Qc_eqb x y). Qed.

Lemma Qc_floor_le (q : Qc) : Qc_of_Z (Qfloor q) <= q.
Proof. unfold Qcle. simpl. apply Qfloor_le. Qed.

Lemma Qc_floor_ge z (q : Qc) : Qc_of_Z z <= q -> (z <= Qfloor q)%Z.
Proof.
  intros H. rewrite <- (Qfloor_Z z). apply Qfloor_resp_le. exact H.
Qed.

Lemma Qc_le_ceiling (q : Qc) : q <= Qc_of_Z (Qceiling q).
Proof. unfold Qcle. simpl. apply Qle_ceiling. Qed.

Lemma Qc_ceiling_pos (q : Qc) : 0 < q -> (1 <= Qceiling q)%Z.
Proof.
  intros H. assert (0 < Qceiling q)%Z; [|lia].
  apply Z2Qc_inj_lt. rewrite Z2Qc_inj_0.
  eapply Qclt_le_trans; [exact H | apply Qc_le_ceiling].
Qed.

Lemma Qc_zero_lt_one : Qc_of_Z 0 < Qc_of_Z 1.
Proof. by apply Z2Qc_inj_lt. Qed.

(** The numbers that are at least one. *)
Lemma ge_one_cases n :
  ge n one = true <-> n = PosInf \/ exists q, n = Fin q /\ Qc_of_Z 1 <= q.
Proof.
  unfold ge, one, of_Z. destruct n as [| | |q]; simpl.
  - split; [done | intros [?|(?&?&?)]; done].
  - split; [by left | done].
  - split; [done | intros [?|(?&?&?)]; done].
  - rewrite negb_true_iff, Qc_ltb_ge. split.
    + intros H. right. by exists q.
    + intros [?|(q'&E&H)]; [done|]. by inversion E; subst.
Qed.

Lemma ge_zero_cases n :
  ge n zero = true <-> n = PosInf \/ exists q, n = Fin q /\ Qc_of_Z 0 <= q.
Proof.
  unfold ge, zero, of_Z. destruct n as [| | |q]; simpl.
  - split; [done | intros [?|(?&?&?)]; done].
  - split; [by left | done].
  - split; [done | intros [?|(?&?&?)]; done].
  - rewrite negb_true_iff, Qc_ltb_ge. split.
    + intros H. right. by exists q.
    + intros [?|(q'&E&H)]; [done|]. by inversion E; subst.
Qed.

(** The helper's test for an unusable page or page size is the negation
    of "at least one". *)
Lemma unusable_ge_one n : Pagination.unusable n = negb (ge n one).
Proof.
  unfold Pagination.unusable, ge, truthy, one, of_Z.
  destruct n as [| | |q]; simpl; try done.
  destruct (Qc_eqb q 0) eqn:E; simpl; [|by rewrite negb_involutive].
  apply Qc_eqb_eq in E. subst q. symmetry.
  rewrite negb_involutive. apply Qc_ltb_lt.
  rewrite <- Z2Qc_inj_0. apply Qc_zero_lt_one.
Qed.

Lemma max_one_ge n : ge n one = true -> max one n = n.
Proof.
  intros H. apply ge_one_cases in H as [->|(q & -> & H)]; [done|].
  unfold max, one, of_Z. simpl.
  destruct (Qc_ltb (Qc_of_Z 1) q) eqn:E; [done|].
  f_equal. apply Qc_ltb_ge in E. by apply Qcle_antisym.
Qed.

Lemma max_one_ge_one n : isNaN n = false -> ge (max one n) one = true.
Proof.
  intros Hn. apply ge_one_cases.
  destruct n as [| | |q]; simpl; try done.
  - by left.
  - right. exists (Qc_of_Z 1). split; [done|]. apply Qcle_refl.
  - right. destruct (Qc_ltb (Qc_of_Z 1) q) eqn:E.
    + exists q. split; [done|]. apply Qc_ltb_lt in E. by apply Qclt_le_weak.
    + exists (Qc_of_Z 1). split; [done|]. apply Qcle_refl.
Qed.

Lemma floor_ge_one n : ge n one = true -> ge (floor n) one = true.
Proof.
  rewrite !ge_one_cases. intros [->|(q & -> & H)]; [by left|].
  right. exists (Qc_of_Z (Qfloor q)). split; [done|].
  rewrite <- Z2Qc_inj_le. by apply Qc_floor_ge.
Qed.

Lemma isNaN_floor n : isNaN (floor n) = isNaN n.
Proof. by destruct n. Qed.

Lemma isNaN_min a b : isNaN (min a b) = isNaN a || isNaN b.
Proof.
  destruct a, b; simpl; try done; unfold min; simpl; by case_match.
Qed.

Lemma ge_not_NaN n m : ge n m = true -> isNaN n = false.
Proof. by destruct n. Qed.

Lemma or_else_not_NaN o d : isNaN d = false -> isNaN (or_else o d) = false.
Proof.
  intros Hd. unfold or_else. destruct o as [n|]; [|done].
  destruct (truthy n) eqn:E; [|done]. by destruct n.
Qed.

End NumberFacts.

(** ** The pagination calculator *)

Section PaginationClaims.

Import Number Pagination.
Local Open Scope Qc_scope.

Lemma not_ge_one o :
  non_numeric o || below_one o = true ->
  forall n, o = Some n -> ge n one = false.
Proof.
  intros H n ->. simpl in H. unfold ge.
  destruct (isNaN n); [done|]. simpl in *. by rewrite H.
Qed.

Lemma coerce_page_default o :
  non_numeric o || below_one o = true -> coerce_page o = one.
Proof.
  intros H. destruct o as [n|]; [|done]. simpl.
  by rewrite unusable_ge_one, (not_ge_one _ H n eq_refl).
Qed.

Lemma coerce_page_keep n : ge n one = true -> coerce_page (Some n) = n.
Proof. intros H. simpl. by rewrite unusable_ge_one, H. Qed.

Lemma ge_one_truthy n : ge n one = true -> truthy n = true.
Proof.
  intros H. pose proof (unusable_ge_one n) as E. rewrite H in E.
  unfold unusable in E. by destruct (truthy n).
Qed.

Lemma coerce_per_page_default o d :
  non_numeric o || below_one o = true -> coerce_per_page o d = d.
Proof.
  intros H. unfold coerce_per_page, or_else.
  destruct o as [n|]; [|by destruct (unusable d)].
  destruct (truthy n); [|by destruct (unusable d)].
  by rewrite unusable_ge_one, (not_ge_one _ H n eq_refl).
Qed.

Lemma coerce_per_page_keep n d :
  ge n one = true -> coerce_per_page (Some n) d = n.
Proof.
  intros H. unfold coerce_per_page, or_else.
  by rewrite (ge_one_truthy n H), unusable_ge_one, H.
Qed.

(** Above an integer bound the floor is still at least the bound, so the
    minimum with the bound is the bound. *)
Lemma min_floor_above n m :
  is_integer m = true -> gt n m = true -> min (floor n) m = m.
Proof.
  destruct m as [| | |m]; try done. simpl. intros Hi Hgt.
  apply Qc_eqb_eq in Hi. unfold gt in Hgt.
  destruct n as [| | |q]; try done. simpl in *.
  apply Qc_ltb_lt in Hgt. unfold min, of_Z. simpl.
  destruct (Qc_ltb m (Qc_of_Z (Qfloor q))) eqn:E; [done|].
  f_equal. apply Qc_ltb_ge in E. apply Qcle_antisym; [done|].
  rewrite <- Hi. rewrite <- Z2Qc_inj_le. apply Qfloor_resp_le.
  by apply Qclt_le_weak.
Qed.

(** C4. [getPaginationLimits] normalises its input: a page that is
    [undefined], [NaN] or below one becomes page one, any other page is
    floored; a [per_page] that is [undefined], [NaN] or below one is
    replaced by the default size, any other is kept; the limit is the
    floor of that size clamped between one and the maximum size, so that
    a [per_page] above a maximum size that is an integer of at least one
    gives the maximum size; and the offset is [(page - 1) * limit]. *)
Theorem limits_normalized
    (dto : PaginationRequest.PaginationRequestDto)
    (configService : option ConfigService) :
  let l := getPaginationLimits dto configService in
  let defaultSize := defaultPageSize configService in
  let maxSize := maxPageSize configService in
  let perPage :=
    coerce_per_page (PaginationRequest.per_page dto) defaultSize in
  let requested := PaginationRequest.page dto in
  let size := PaginationRequest.per_page dto in
  (non_numeric requested || below_one requested = true -> page l = one)
  /\ (forall p, requested = Some p -> ge p one = true -> page l = floor p)
  /\ (non_numeric size || below_one size = true -> perPage = defaultSize)
  /\ (forall n, size = Some n -> ge n one = true -> perPage = n)
  /\ limit l = clamp (floor perPage) one maxSize
  /\ (forall n, size = Some n -> gt n maxSize = true ->
        is_integer maxSize = true -> ge maxSize one = true ->
        limit l = maxSize)
  /\ offset l = mul (sub (page l) one) (limit l).
Proof.
  intros l defaultSize maxSize perPage requested size.
  assert (forall n, size = Some n -> ge n one = true -> perPage = n) as Hkeep.
  { intros n Hn Hge. unfold perPage. fold size. rewrite Hn.
    by apply coerce_per_page_keep. }
  repeat split.
  - intros H. unfold l, getPaginationLimits. simpl. fold requested.
    by rewrite (coerce_page_default _ H).
  - intros p Hp Hge. unfold l, getPaginationLimits. simpl. fold requested.
    rewrite Hp, (coerce_page_keep _ Hge).
    apply max_one_ge. by apply floor_ge_one.
  - intros H. by apply coerce_per_page_default.
  - exact Hkeep.
  - intros n Hn Hgt Hint Hmax.
    assert (ge n one = true) as Hge.
    { apply ge_one_cases in Hmax as [E|(m & E & Hm)].
      - rewrite E in Hint. done.
      - rewrite E in Hgt. unfold gt in Hgt.
        apply ge_one_cases. destruct n as [| | |q]; try done; [by left|].
        right. exists q. split; [done|]. simpl in Hgt.
        apply Qc_ltb_lt in Hgt. apply Qclt_le_weak.
        by eapply Qcle_lt_trans. }
    change (limit l) with (max one (min (floor perPage) maxSize)).
    rewrite (Hkeep n Hn Hge), (min_floor_above _ _ Hint Hgt).
    by apply max_one_ge.
Qed.

Lemma gt_zero_cases n :
  gt n zero = true <-> n = PosInf \/ exists q, n = Fin q /\ Qc_of_Z 0 < q.
Proof.
  unfold gt, zero, of_Z. destruct n as [| | |q]; simpl.
  - split; [done | intros [?|(?&?&?)]; done].
  - split; [by left | done].
  - split; [done | intros [?|(?&?&?)]; done].
  - rewrite Qc_ltb_lt. split.
    + intros H. right. by exists q.
    + intros [?|(q'&E&H)]; [done|]. by inversion E; subst.
Qed.

Lemma Qc_one_neq_zero (q : Qc) : Qc_of_Z 1 <= q -> Qc_eqb q 0 = false.
Proof.
  intros H. apply Qc_eqb_neq. intros ->.
  apply (Qcle_not_lt _ _ H). rewrite <- Z2Qc_inj_0. apply Qc_zero_lt_one.
Qed.

Lemma Qc_one_pos (q : Qc) : Qc_of_Z 1 <= q -> Qc_of_Z 0 < q.
Proof. intros H. eapply Qclt_le_trans; [apply Qc_zero_lt_one | exact H]. Qed.

(** With rows and a finite page size there is at least one page. *)
Lemma ceil_div_ge_one total limit :
  gt total zero = true -> ge limit one = true -> is_finite limit = true ->
  ge (ceil (div total limit)) one = true.
Proof.
  intros Ht Hl Hf. destruct limit as [| | |l]; try done.
  apply ge_one_cases in Hl as [?|(l' & E & Hl)]; [done|].
  inversion E; subst l'. clear E.
  pose proof (Qc_one_pos l Hl) as Hpos. rewrite Z2Qc_inj_0 in Hpos.
  apply gt_zero_cases in Ht as [->|(t & -> & Ht)]; unfold div.
  - destruct (Qc_ltb l 0) eqn:E; [|done].
    apply Qc_ltb_lt in E. exfalso.
    by apply (Qclt_not_le _ _ E), Qclt_le_weak.
  - rewrite (Qc_one_neq_zero l Hl). unfold ceil, of_Z.
    apply ge_one_cases. right.
    exists (Qc_of_Z (Qceiling (t / l)%Qc)). split; [done|].
    rewrite <- Z2Qc_inj_le. apply (Qc_ceiling_pos (t / l)).
    rewrite Z2Qc_inj_0 in Ht.
    unfold Qcdiv. apply Qcmult_pos_pos; [done|]. by apply Qcinv_pos.
Qed.

(** Without rows there is no page, and the window is empty. *)
Lemma calculateMeta_no_rows page limit :
  ge page one = true -> ge limit one = true ->
  calculateMeta zero page limit
  = {| totalPages := zero; currentPage := one; perPage := limit;
       from := zero; to := zero |}.
Proof.
  intros Hp Hl. unfold calculateMeta.
  assert (div zero limit = zero) as ->.
  { apply ge_one_cases in Hl as [->|(l & -> & Hl)]; [done|].
    unfold zero, of_Z. simpl. rewrite (Qc_one_neq_zero l Hl).
    f_equal. rewrite Z2Qc_inj_0. unfold Qcdiv. apply Qcmult_0_l. }
  change (ceil zero) with zero.
  assert (min page zero = zero) as ->.
  { apply ge_one_cases in Hp as [->|(p & -> & Hp)]; [done|].
    unfold min, zero, of_Z. simpl.
    by rewrite (proj2 (Qc_ltb_lt _ _) (Qc_one_pos p Hp)). }
  change (max one zero) with one. change (gt zero zero) with false.
  assert (min (mul one limit) zero = zero) as ->; [|done].
  apply ge_one_cases in Hl as [->|(l & -> & Hl)]; [done|].
  unfold min, one, zero, of_Z. simpl.
  assert (Qc_of_Z 0 < Qc_of_Z 1 * l) as H.
  { rewrite Z2Qc_inj_1, Qcmult_1_l. by apply Qc_one_pos. }
  by rewrite (proj2 (Qc_ltb_lt _ _) H).
Qed.

(** The number of pages [calculateMeta] returns.  For a total of at
    least zero, a page of at least one and a limit of at least one it is
    [ceil(total / limit)] and nothing more: with rows and a finite limit
    this is [max(1, ceil(total / limit))], and without rows it is zero,
    next to [currentPage = 1], [from = 0] and [to = 0]. *)
Lemma totalPages_is_ceiling (total page limit : number) :
  ge total zero = true ->
  ge page one = true ->
  ge limit one = true ->
  let m := calculateMeta total page limit in
  totalPages m = ceil (div total limit)
  /\ (gt total zero = true -> is_finite limit = true ->
      totalPages m = max one (ceil (div total limit)))
  /\ (total = zero ->
      totalPages m = zero /\ currentPage m = one
      /\ from m = zero /\ to m = zero).
Proof.
  intros Ht Hp Hl m. split; [done|]. split.
  - intros Hpos Hfin. symmetry. apply max_one_ge.
    by apply ceil_div_ge_one.
  - intros ->. unfold m. by rewrite (calculateMeta_no_rows _ _ Hp Hl).
Qed.

Example totalPages_with_rows :
  totalPages (calculateMeta (of_Z 25) (of_Z 3) (of_Z 10))
  = max one (ceil (div (of_Z 25) (of_Z 10))).
Proof.
  pose proof (totalPages_is_ceiling (of_Z 25) (of_Z 3) (of_Z 10)
                eq_refl eq_refl eq_refl) as (_ & H & _).
  exact (H eq_refl eq_refl).
Qed.

(** C1.  [calculateMeta(0, 1, 10)] yields [from = 0] and [to = 0], and
    zero pages, where [max(1, ceil(0 / 10))] is one: the current page,
    clamped to at least one, lies beyond the last page.  The response
    built from it by [paginateWithMeta] reports [last_page = 0], while
    [ResponseHelper.paginate] reports [last_page = 1] for the same
    numbers. *)
Theorem calculateMeta_no_rows_zero_pages :
  calculateMeta zero one (of_Z 10)
  = {| totalPages := zero; currentPage := one; perPage := of_Z 10;
       from := zero; to := zero |}
  /\ max one (ceil (div zero (of_Z 10))) = one
  /\ zero <> one
  /\ last_page (ResponseHelper.paginateWithMeta
                  (calculateMeta zero one (of_Z 10)) zero) = zero
  /\ last_page (ResponseHelper.paginate one
                  (totalPages (calculateMeta zero one (of_Z 10)))
                  (of_Z 10) zero) = one.
Proof. repeat split; try reflexivity. discriminate. Qed.

Lemma limits_normalized_witness :
  limit (getPaginationLimits
           {| PaginationRequest.page := Some (Fin (Q2Qc (27 # 10)));
              PaginationRequest.per_page := Some (of_Z 500);
              PaginationRequest.sort_by := None;
              PaginationRequest.sort_order := None;
              PaginationRequest.filters := None |} None)
  = of_Z 100.
Proof.
  pose proof (limits_normalized
                {| PaginationRequest.page := Some (Fin (Q2Qc (27 # 10)));
                   PaginationRequest.per_page := Some (of_Z 500);
                   PaginationRequest.sort_by := None;
                   PaginationRequest.sort_order := None;
                   PaginationRequest.filters := None |} None)
    as (_ & _ & _ & _ & _ & H & _).
  exact (H (of_Z 500) eq_refl eq_refl eq_refl eq_refl).
Defined.

End PaginationClaims.

(** ** The executed pagination path *)

Section PaginateClaims.

Import Number Pagination.
Local Open Scope Qc_scope.

Context {Row : Type}.
Variable getManyAndCount : Builder.SelectQueryBuilder -> option (list Row * nat).

Lemma defaultPageSize_not_NaN cs : isNaN (defaultPageSize cs) = false.
Proof. by apply or_else_not_NaN. Qed.

Lemma maxPageSize_not_NaN cs : isNaN (maxPageSize cs) = false.
Proof. by apply or_else_not_NaN. Qed.

Lemma coerce_per_page_not_NaN o d :
  isNaN d = false -> isNaN (coerce_per_page o d) = false.
Proof.
  intros Hd. unfold coerce_per_page.
  destruct (unusable (or_else o d)) eqn:E; [done|].
  rewrite unusable_ge_one in E. apply negb_false_iff in E.
  by apply ge_not_NaN in E.
Qed.

(** The limit is never below one, whatever the request and configuration. *)
Lemma limit_ge_one dto cs : ge (limit (getPaginationLimits dto cs)) one = true.
Proof.
  unfold getPaginationLimits. simpl. apply max_one_ge_one.
  rewrite isNaN_min, isNaN_floor, maxPageSize_not_NaN.
  rewrite coerce_per_page_not_NaN; [done|]. apply defaultPageSize_not_NaN.
Qed.

Lemma of_nat_pos (count : nat) :
  (0 < count)%nat -> gt (of_nat count) zero = true.
Proof.
  intros H. unfold gt, of_nat, zero, of_Z. simpl.
  apply Qc_ltb_lt. rewrite <- Z2Qc_inj_lt. lia.
Qed.

Lemma Qc_lt_succ (x : Qc) : x < x + Qc_of_Z 1.
Proof.
  rewrite <- (Qcplus_0_r x) at 1. apply Qcplus_lt_mono_l.
  rewrite <- Z2Qc_inj_0. apply Qc_zero_lt_one.
Qed.

(** A window that starts at or after the last row: its first position is
    beyond its last. *)
Lemma window_past_the_end (o l : number) (c : Qc) :
  ge l one = true -> ge o (Fin c) = true ->
  gt (add o one) (min (add o l) (Fin c)) = true.
Proof.
  intros Hl Ho.
  assert (o = PosInf \/ exists x, o = Fin x /\ c <= x) as [->|(x & -> & Hx)].
  { unfold ge in Ho. destruct o as [| | |x]; try done; [by left|].
    right. exists x. split; [done|]. simpl in Ho.
    by apply negb_true_iff, Qc_ltb_ge in Ho. }
  - apply ge_one_cases in Hl as [->|(m & -> & Hm)]; done.
  - assert (c < x + Qc_of_Z 1) as Hc.
    { eapply Qcle_lt_trans; [exact Hx | apply Qc_lt_succ]. }
    apply ge_one_cases in Hl as [->|(m & -> & Hm)]; unfold gt, min, one, of_Z;
      simpl.
    + by apply Qc_ltb_lt.
    + assert (c < x + m) as Hcm.
      { eapply Qclt_le_trans; [exact Hc|]. by apply Qcplus_le_mono_l. }
      rewrite (proj2 (Qc_ltb_lt _ _) Hcm). by apply Qc_ltb_lt.
Qed.

(** C10. When the query resolves, [paginateWithTypeORM] resolves too,
    and its [meta] reports the normalised page as [current_page] whatever
    the number of pages is, [from = offset + 1] when there are rows, and
    [to = min(offset + limit, total)]; so when there are rows and the
    offset is at least their number, [from] is greater than [to]. *)
Theorem paginate_meta_of_requested_page
    (queryBuilder : Builder.SelectQueryBuilder)
    (dto : PaginationRequest.PaginationRequestDto)
    (configService : option ConfigService)
    (rows : list Row) (count : nat) :
  let l := getPaginationLimits dto configService in
  getManyAndCount (Builder.take (limit l) (Builder.skip (offset l) queryBuilder))
    = Some (rows, count) ->
  exists r,
    paginateWithTypeORM getManyAndCount queryBuilder dto configService = Some r
    /\ data r = rows
    /\ current_page (meta r) = page l
    /\ last_page (meta r) = ceil (div (of_nat count) (limit l))
    /\ total (meta r) = of_nat count
    /\ ((0 < count)%nat -> meta_from (meta r) = add (offset l) one)
    /\ meta_to (meta r) = min (add (offset l) (limit l)) (of_nat count)
    /\ ((0 < count)%nat -> ge (offset l) (of_nat count) = true ->
        gt (meta_from (meta r)) (meta_to (meta r)) = true).
Proof.
  intros l Hq. unfold paginateWithTypeORM. fold l. rewrite Hq.
  eexists. split; [reflexivity|].
  cbn [data meta current_page last_page total meta_from meta_to].
  repeat split.
  - intros Hc. by rewrite (of_nat_pos _ Hc).
  - intros Hc Ho. rewrite (of_nat_pos _ Hc).
    apply window_past_the_end; [apply limit_ge_one | exact Ho].
Qed.

End PaginateClaims.

Section PaginateExamples.

Import Number Pagination.

(** Page five of three rows, ten to a page: the response says page 5 of
    1, from 41 to 3. *)
Lemma paginate_meta_of_requested_page_witness :
  exists r,
    paginateWithTypeORM (fun _ => Some ([] : list unit, 3%nat))
      (Builder.queryBuilder Fixtures.start)
      {| PaginationRequest.page := Some (of_Z 5);
         PaginationRequest.per_page := Some (of_Z 10);
         PaginationRequest.sort_by := None;
         PaginationRequest.sort_order := None;
         PaginationRequest.filters := None |} None = Some r
    /\ current_page (meta r) = of_Z 5
    /\ last_page (meta r) = of_Z 1
    /\ gt (meta_from (meta r)) (meta_to (meta r)) = true.
Proof.
  destruct (paginate_meta_of_requested_page
              (fun _ => Some ([] : list unit, 3%nat))
              (Builder.queryBuilder Fixtures.start)
              {| PaginationRequest.page := Some (of_Z 5);
                 PaginationRequest.per_page := Some (of_Z 10);
                 PaginationRequest.sort_by := None;
                 PaginationRequest.sort_order := None;
                 PaginationRequest.filters := None |} None [] 3%nat eq_refl)
    as (r & Hr & _ & Hp & Hl & _ & _ & _ & Hgt).
  exists r. repeat split; [exact Hr | exact Hp | exact Hl |].
  apply Hgt; [lia | reflexivity].
Defined.

End PaginateExamples.

(** * Further properties *)

(** ** The validator accepts exactly the well-formed filters *)

Section ValidatorExtras.

Import Validator Notions.

Lemma filter_errors_nil_iff al i f :
  filter_errors al i f = [] <-> filter_ok al f = true.
Proof.
  unfold filter_ok.
  destruct (FilterType_of_string (filter_type f)) as [t|] eqn:Ht.
  - rewrite (filter_errors_split al i f t Ht).
    unfold field_errors, operand_errors.
    destruct (JS.includes al (search_by f)); destruct (operands_missing t f);
      simpl; split; done.
  - rewrite (filter_errors_unknown al i f Ht). unfold field_errors.
    destruct (JS.includes al (search_by f)); simpl; split; done.
Qed.

Lemma errors_from_nil_iff al fs : forall i,
  errors_from al i fs = [] <-> Forall (fun f => filter_ok al f = true) fs.
Proof.
  induction fs as [|f fs IH]; intros i.
  - unfold errors_from. simpl. split; [constructor | done].
  - rewrite errors_from_cons, Forall_cons, <- (IH (S i)),
      <- (filter_errors_nil_iff al i f).
    split.
    + intros H. by apply app_eq_nil in H.
    + intros [-> ->]. done.
Qed.

(** The list of errors is empty exactly when every filter names an
    allowed field, has an operator of the enum, and carries the operands
    that operator requires. *)
Theorem validateFilters_accepts_iff
    (fs : list PaginationFilterDto) (al : list string) :
  validateFilters fs al = [] <-> Forall (fun f => filter_ok al f = true) fs.
Proof. rewrite validateFilters_unfold. apply errors_from_nil_iff. Qed.

Lemma string_app_assoc (a b c : string) :
  (a +:+ b) +:+ c = a +:+ (b +:+ c).
Proof.
  induction a as [|x a IH]; [reflexivity|].
  change (String x ((a +:+ b) +:+ c) = String x (a +:+ (b +:+ c))).
  by f_equal.
Qed.

Lemma string_prefix_app (a b : string) : String.prefix a (a +:+ b) = true.
Proof.
  induction a as [|c a IH].
  - change (String.prefix EmptyString b = true). by destruct b.
  - change (String.prefix (String c a) (String c (a +:+ b)) = true).
    simpl. destruct (ascii_dec c c); [exact IH | done].
Qed.

Lemma tagged_message (p rest : string) :
  String.prefix ("Filter " +:+ p +:+ ": ")
    (("Filter " +:+ p) +:+ String ":" (String " " rest)) = true.
Proof.
  change (String ":" (String " " rest)) with (": " +:+ rest).
  rewrite <- (string_app_assoc ("Filter " +:+ p) ": " rest).
  rewrite (string_app_assoc "Filter " p ": ").
  apply string_prefix_app.
Qed.

Lemma filter_errors_tagged al i f m :
  m ∈ filter_errors al i f ->
  String.prefix ("Filter " +:+ pretty (i + 1) +:+ ": ") m = true.
Proof.
  destruct (FilterType_of_string (filter_type f)) as [t|] eqn:Ht.
  - rewrite (filter_errors_split al i f t Ht).
    unfold field_errors, operand_errors, operand_message.
    intros Hm. apply elem_of_app in Hm as [Hm|Hm].
    + destruct (JS.includes al (search_by f)); [inversion Hm|].
      apply list_elem_of_singleton in Hm as ->. apply tagged_message.
    + destruct (operands_missing t f) eqn:Hmiss; [|inversion Hm].
      apply list_elem_of_singleton in Hm as ->.
      unfold operands_missing in Hmiss.
      destruct (arity_of t); [done| | |]; apply tagged_message.
  - rewrite (filter_errors_unknown al i f Ht). unfold field_errors.
    intros Hm. apply elem_of_app in Hm as [Hm|Hm].
    + destruct (JS.includes al (search_by f)); [inversion Hm|].
      apply list_elem_of_singleton in Hm as ->. apply tagged_message.
    + apply list_elem_of_singleton in Hm as ->. apply tagged_message.
Qed.

(** Every message starts with ["Filter <n>: "], where [n] is the 1-based
    position of a filter of the list. *)
Theorem validateFilters_messages_tagged
    (fs : list PaginationFilterDto) (al : list string) :
  Forall (fun m => exists i,
            i < length fs
            /\ String.prefix ("Filter " +:+ pretty (i + 1) +:+ ": ") m = true)
    (validateFilters fs al).
Proof.
  apply Forall_forall. intros m Hm.
  rewrite validateFilters_unfold in Hm.
  destruct (errors_from_origin _ _ _ _ Hm) as (k & f & Hk & Hf).
  exists k. split; [by apply lookup_lt_Some in Hk|].
  by apply (filter_errors_tagged al k f).
Qed.

(** A field that passes the field check of the compilers is in the
    allow-list. *)
Lemma field_guard_allowed (al : list string) (s : string) :
  Search.field_guard al s = true -> s ∈ al.
Proof.
  unfold Search.field_guard. rewrite !andb_true_iff.
  intros [_ H]. by apply includes_elem_of.
Qed.

End ValidatorExtras.

(** ** What the predicate compiler adds to a query *)

Section SearchExtras.

Import Builder Search Notions.

Context {JsonValue : Type}.
Variable JSON_parse : string -> option JsonValue.
Variable JSON_stringify : JsonValue -> string.

Local Abbreviation compile_filter :=
  (Search.compile_filter JSON_parse JSON_stringify).
Local Abbreviation compile_from :=
  (Search.compile_from JSON_parse JSON_stringify).
Local Abbreviation buildSearchQuery :=
  (Search.buildSearchQuery JSON_parse JSON_stringify).

Ltac pick_shape :=
  first [ apply String.eqb_refl
        | apply orb_true_iff;
          first [ left; apply String.eqb_refl | right; pick_shape ] ].

Ltac solve_condition :=
  unfold condition_on, condition_shapes; cbn [existsb fst snd]; pick_shape.

Ltac solve_names :=
  rewrite ?dom_insert_L, ?dom_singleton_L, ?dom_empty_L;
  unfold param_names; intros x; rewrite ?elem_of_union, ?elem_of_singleton;
  try rewrite elem_of_empty; tauto.

(** One filter leaves the state as it is, or adds one console call, or
    adds one predicate; a predicate is added only for a field that passes
    the field check, is a condition on that column, and binds only the
    parameter names of the filter's position. *)
Lemma compile_filter_outcome al alias f i w :
  compile_filter al alias f i w = w
  \/ (exists l args, compile_filter al alias f i w = emit l args w)
  \/ (exists c ps,
        compile_filter al alias f i w = on_builder (andWhere c ps) w
        /\ field_guard al (search_by f) = true
        /\ condition_on alias (search_by f) i c = true
        /\ dom ps ⊆ param_names i).
Proof.
  unfold Search.compile_filter.
  destruct (field_guard al (search_by f)) eqn:Hg; [|by left].
  destruct (FilterType_of_string (filter_type f)) as [t|]; [|by left].
  cbv zeta.
  destruct t; unfold bind1, json_case;
    repeat (match goal with
            | |- context [match ?x with _ => _ end] => destruct x
            end);
    first [ by left
          | right; left; by eexists _, _
          | right; right; eexists _, _; split; [reflexivity|];
            split; [done|]; split; [solve_condition | solve_names] ].
Qed.

Lemma added_by_shift al alias f fs i p k :
  added_by al alias fs (S i) p k -> added_by al alias (f :: fs) i p k.
Proof.
  intros (Hk & g & Hg & H). split; [lia|]. exists g. split; [|done].
  replace (k - i) with (S (k - S i)) by lia. done.
Qed.

(** The shape of the state after compiling the filters standing at the
    positions [i], [i + 1], ... *)
Lemma compile_from_shape al alias fs : forall i w,
  exists ps ks cs,
    wheres (queryBuilder (compile_from al alias fs i w))
    = wheres (queryBuilder w) ++ ps
    /\ console (compile_from al alias fs i w) = console w ++ cs
    /\ order (queryBuilder (compile_from al alias fs i w))
       = order (queryBuilder w)
    /\ skipped (queryBuilder (compile_from al alias fs i w))
       = skipped (queryBuilder w)
    /\ taken (queryBuilder (compile_from al alias fs i w))
       = taken (queryBuilder w)
    /\ length ps + length cs <= length fs
    /\ Forall2 (added_by al alias fs i) ps ks
    /\ NoDup ks.
Proof.
  induction fs as [|f fs IH]; intros i w.
  - exists [], [], []. simpl. rewrite !app_nil_r.
    repeat split; try done; constructor.
  - simpl.
    destruct (IH (S i) (compile_filter al alias f i w))
      as (ps & ks & cs & Hw & Hc & Ho & Hs & Ht & Hlen & Hadd & Hnd).
    rewrite Hw, Hc, Ho, Hs, Ht.
    assert (Forall2 (added_by al alias (f :: fs) i) ps ks) as Hadd'.
    { eapply Forall2_impl; [exact Hadd|]. intros p k. apply added_by_shift. }
    destruct (compile_filter_outcome al alias f i w)
      as [-> | [(l & args & ->) | (c & qs & -> & Hg & Hcond & Hdom)]].
    + exists ps, ks, cs. repeat split; try done. lia.
    + exists ps, ks, ({| level := l; arguments := args |} :: cs). simpl.
      rewrite <- app_assoc. repeat split; try done. lia.
    + exists ({| condition := c; parameters := qs |} :: ps), (i :: ks), cs.
      simpl. rewrite <- app_assoc. repeat split; try done; [lia| |].
      * constructor; [|done]. split; [lia|]. exists f.
        rewrite Nat.sub_diag. done.
      * constructor; [|done]. intros Hin.
        apply list_elem_of_lookup in Hin as [a Ha].
        destruct (Forall2_lookup_r _ _ _ _ _ Hadd Ha) as (p & _ & Hk & _).
        lia.
Qed.

(** What [buildSearchQuery] adds to the predicates: at most one condition
    per filter, each on the column of a filter of the request whose field
    is in the allow-list. *)
Lemma buildSearchQuery_added
    (w : World) (query : QueryRequest.QueryRequestBodyDto)
    (al : list string) (alias : string) :
  exists ps,
    wheres (queryBuilder (buildSearchQuery w query al alias))
    = wheres (queryBuilder w) ++ ps
    /\ length ps <= length (default [] (QueryRequest.filters query))
    /\ Forall (fun p => exists f k,
                 default [] (QueryRequest.filters query) !! k = Some f
                 /\ search_by f ∈ al
                 /\ condition_on alias (search_by f) k (condition p) = true)
         ps.
Proof.
  unfold Search.buildSearchQuery.
  destruct (QueryRequest.filters query) as [fs|]; simpl.
  - destruct (compile_from_shape al alias fs 0 w)
      as (ps & ks & cs & Hw & _ & _ & _ & _ & Hlen & Hadd & _).
    exists ps. split; [done|]. split; [lia|].
    apply Forall_forall. intros p Hp.
    apply list_elem_of_lookup in Hp as [a Ha].
    destruct (Forall2_lookup_l _ _ _ _ _ Hadd Ha)
      as (k & _ & _ & f & Hf & Hg & Hcond & _).
    rewrite Nat.sub_0_r in Hf.
    exists f, k. repeat split; try done.
    by apply field_guard_allowed.
  - exists []. rewrite app_nil_r. repeat split; [done|constructor].
Qed.

(** [buildSearchQuery] only appends: the predicates and console calls
    that were there stay in front, each filter adds at most one of either,
    and ordering and window of the builder are untouched. *)
Theorem buildSearchQuery_only_appends
    (w : World) (query : QueryRequest.QueryRequestBodyDto)
    (al : list string) (alias : string) :
  let r := buildSearchQuery w query al alias in
  exists ps cs,
    wheres (queryBuilder r) = wheres (queryBuilder w) ++ ps
    /\ console r = console w ++ cs
    /\ length ps + length cs
       <= length (default [] (QueryRequest.filters query))
    /\ order (queryBuilder r) = order (queryBuilder w)
    /\ skipped (queryBuilder r) = skipped (queryBuilder w)
    /\ taken (queryBuilder r) = taken (queryBuilder w).
Proof.
  unfold Search.buildSearchQuery.
  destruct (QueryRequest.filters query) as [fs|]; simpl.
  - destruct (compile_from_shape al alias fs 0 w)
      as (ps & ks & cs & Hw & Hc & Ho & Hs & Ht & Hlen & _).
    exists ps, cs. done.
  - exists [], []. rewrite !app_nil_r. repeat split; try done; simpl; lia.
Qed.

(** Every predicate [buildSearchQuery] adds belongs to one of the
    request's filters whose field is in the allow-list, and its condition
    is, as a whole, one of the compiler's SQL shapes written around that
    column qualified by the alias, with the parameter name of the
    filter's position: no other column and no other text of the request
    is part of the condition. *)
Theorem buildSearchQuery_allowed_columns_only
    (w : World) (query : QueryRequest.QueryRequestBodyDto)
    (al : list string) (alias : string) (ps : list Predicate) :
  wheres (queryBuilder (buildSearchQuery w query al alias))
  = wheres (queryBuilder w) ++ ps ->
  Forall (fun p => exists f fs k,
            QueryRequest.filters query = Some fs /\ fs !! k = Some f
            /\ search_by f ∈ al
            /\ condition_on alias (search_by f) k (condition p) = true) ps.
Proof.
  unfold Search.buildSearchQuery. intros Heq.
  destruct (QueryRequest.filters query) as [fs|].
  - destruct (compile_from_shape al alias fs 0 w)
      as (ps' & ks & cs & Hw & _ & _ & _ & _ & _ & Hadd & _).
    rewrite Hw in Heq. apply app_inv_head in Heq as ->.
    apply Forall_forall. intros p Hp.
    apply list_elem_of_lookup in Hp as [a Ha].
    destruct (Forall2_lookup_l _ _ _ _ _ Hadd Ha)
      as (k & _ & _ & f & Hf & Hg & Hcond & _).
    rewrite Nat.sub_0_r in Hf.
    exists f, fs, k. repeat split; try done.
    by apply field_guard_allowed.
  - rewrite <- (app_nil_r (wheres (queryBuilder w))) in Heq at 1.
    apply app_inv_head in Heq as <-. constructor.
Qed.

Lemma param_names_disjoint i j : i <> j -> param_names i ## param_names j.
Proof.
  intros Hij x Hi Hj. unfold param_names in *.
  rewrite !elem_of_union, !elem_of_singleton in Hi, Hj.
  assert (pretty i <> pretty j) as Hp.
  { intros E. by apply (inj pretty) in E. }
  destruct Hi as [[->| ->]| ->]; destruct Hj as [[E|E]|E];
    try discriminate E.
  - by apply (inj (String.app "param_")) in E.
  - by apply (inj (String.app "start_")), (inj (String.app "param_")) in E.
  - by apply (inj (String.app "end_")), (inj (String.app "param_")) in E.
Qed.

(** No two predicates that [buildSearchQuery] adds bind a parameter of
    the same name. *)
Theorem buildSearchQuery_parameter_names_distinct
    (w : World) (query : QueryRequest.QueryRequestBodyDto)
    (al : list string) (alias : string) (ps : list Predicate)
    (a b : nat) (p q : Predicate) :
  wheres (queryBuilder (buildSearchQuery w query al alias))
  = wheres (queryBuilder w) ++ ps ->
  a <> b -> ps !! a = Some p -> ps !! b = Some q ->
  dom (parameters p) ## dom (parameters q).
Proof.
  unfold Search.buildSearchQuery. intros Heq Hab Ha Hb.
  destruct (QueryRequest.filters query) as [fs|].
  - destruct (compile_from_shape al alias fs 0 w)
      as (ps' & ks & cs & Hw & _ & _ & _ & _ & _ & Hadd & Hnd).
    rewrite Hw in Heq. apply app_inv_head in Heq as ->.
    destruct (Forall2_lookup_l _ _ _ _ _ Hadd Ha)
      as (ka & Hka & _ & _ & _ & _ & _ & Hda).
    destruct (Forall2_lookup_l _ _ _ _ _ Hadd Hb)
      as (kb & Hkb & _ & _ & _ & _ & _ & Hdb).
    assert (ka <> kb) as Hk.
    { intros ->. apply Hab. by eapply NoDup_lookup. }
    pose proof (param_names_disjoint ka kb Hk). set_solver.
  - rewrite <- (app_nil_r (wheres (queryBuilder w))) in Heq at 1.
    apply app_inv_head in Heq as <-. done.
Qed.

End SearchExtras.

(** ** Validator and compiler on the same filter *)

Section ValidatedFilters.

Import Builder Search Notions.

Context {JsonValue : Type}.
Variable JSON_parse : string -> option JsonValue.
Variable JSON_stringify : JsonValue -> string.

Local Abbreviation compile_filter :=
  (Search.compile_filter JSON_parse JSON_stringify).

Ltac pick_shape :=
  first [ apply String.eqb_refl
        | apply orb_true_iff;
          first [ left; apply String.eqb_refl | right; pick_shape ] ].

Ltac solve_condition :=
  unfold condition_on, condition_shapes; cbn [existsb fst snd]; pick_shape.

Lemma truthy_Some o : JS.truthy o = true -> exists c s, o = Some (String c s).
Proof. destruct o as [[|c s]|]; try done. intros _. by exists c, s. Qed.

(** A filter the validator has no complaint about, on a field that also
    passes the compiler's field check, compiles to exactly one predicate
    on its column and leaves the console alone, for every operator but
    the structured-value ones. *)
Theorem accepted_filter_adds_one_predicate
    (al : list string) (alias : string) (f : PaginationFilterDto)
    (i : nat) (w : World) (t : FilterType) :
  FilterType_of_string (filter_type f) = Some t ->
  is_json_operator t = false ->
  Validator.filter_errors al i f = [] ->
  field_guard al (search_by f) = true ->
  exists c ps,
    compile_filter al alias f i w = on_builder (andWhere c ps) w
    /\ condition_on alias (search_by f) i c = true.
Proof.
  intros Ht Hj Hv Hg.
  apply filter_errors_nil_iff in Hv. unfold filter_ok in Hv.
  rewrite Ht in Hv. apply andb_true_iff in Hv as [_ Hm].
  apply negb_true_iff in Hm. unfold operands_missing in Hm.
  unfold Search.compile_filter. rewrite Hg, Ht. cbv zeta.
  destruct t; try discriminate Hj; simpl in Hm; unfold bind1;
    try (apply orb_false_iff in Hm as [Hs He];
         apply negb_false_iff in Hs, He; rewrite Hs, He; simpl);
    try (apply negb_false_iff in Hm;
         first [ rewrite Hm
               | destruct (truthy_Some _ Hm) as (c0 & s0 & ->) ]);
    eexists _, _; (split; [reflexivity | solve_condition]).
Qed.

(** The compiler does not check operands itself.  With a required
    operand missing, a range or list operator and [array_contains] are
    skipped without a word; a pattern operator without [search_query]
    binds the pattern [%undefined%], and with an empty one the pattern
    [%%]. *)
Theorem compiler_on_missing_operands
    (al : list string) (alias : string) (f : PaginationFilterDto)
    (i : nat) (w : World) (t : FilterType) :
  FilterType_of_string (filter_type f) = Some t ->
  field_guard al (search_by f) = true ->
  operands_missing t f = true ->
  (arity_of t = Range \/ arity_of t = ValueList \/ t = ARRAY_CONTAINS ->
     compile_filter al alias f i w = w)
  /\ (wraps_both t = true ->
      exists c pattern,
        compile_filter al alias f i w
        = on_builder
            (andWhere c {[ "param_" +:+ pretty i := PString pattern ]}) w
        /\ (search_query f = None -> pattern = "%undefined%")
        /\ (search_query f = Some EmptyString -> pattern = "%%")).
Proof.
  intros Ht Hg Hm. unfold operands_missing in Hm.
  unfold Search.compile_filter. rewrite Hg, Ht. cbv zeta. split.
  - intros [Ha | [Ha | ->]].
    + destruct t; try discriminate Ha; simpl in Hm;
        apply orb_true_iff in Hm as [Hm|Hm]; apply negb_true_iff in Hm;
        rewrite Hm; by rewrite ?andb_false_r.
    + destruct t; try discriminate Ha; simpl in Hm;
        apply negb_true_iff in Hm;
        by destruct (values_list f) as [[|c s]|].
    + simpl in Hm. apply negb_true_iff in Hm. by rewrite Hm.
  - intros Hw. destruct t; try discriminate Hw; unfold bind1;
      eexists _, _; (split; [reflexivity|]);
      split; intros ->; reflexivity.
Qed.

(** A [filter_type] outside the enum: the validator reports it as
    unknown, and the compiler, whose [switch] has no default, does
    nothing, whatever the field. *)
Theorem unknown_operator_reported_and_ignored
    (al : list string) (alias : string) (f : PaginationFilterDto)
    (i : nat) (w : World) :
  (forall t, filter_type f <> FilterType_value t) ->
  ("Filter " +:+ pretty (i + 1) +:+ ": Unknown filter type '"
     +:+ filter_type f +:+ "'") ∈ Validator.filter_errors al i f
  /\ compile_filter al alias f i w = w.
Proof.
  intros Hu.
  assert (FilterType_of_string (filter_type f) = None) as Hn.
  { destruct (FilterType_of_string (filter_type f)) as [t|] eqn:E; [|done].
    apply FilterType_of_string_Some in E. by destruct (Hu t). }
  split.
  - rewrite (filter_errors_unknown al i f Hn).
    apply elem_of_app. right. apply list_elem_of_singleton.
    unfold Validator.msg_unknown, Validator.prefix.
    by rewrite string_app_assoc.
  - unfold Search.compile_filter. rewrite Hn.
    by destruct (field_guard al (search_by f)).
Qed.

End ValidatedFilters.

(** ** The sort compiler never passes request text through unchecked *)

Section SortExtras.

Import Builder Search.

(** Whatever the request, [buildSortQuery] sets an ordering: the column
    is [created_at] (descending) or a member of the allow-list, the
    direction is [ASC] or [DESC], and it replaces any earlier ordering
    while predicates and window stay as they were. *)
Theorem sort_column_and_direction_checked
    (w : World) (query : QueryRequest.QueryRequestBodyDto)
    (al : list string) (alias : string) :
  let r := buildSortQuery w query al alias in
  (exists col dir,
      order (queryBuilder r) = Some (alias +:+ "." +:+ col, dir)
      /\ (dir = "ASC" \/ dir = "DESC")
      /\ (col = "created_at" /\ dir = "DESC" \/ col ∈ al))
  /\ wheres (queryBuilder r) = wheres (queryBuilder w)
  /\ skipped (queryBuilder r) = skipped (queryBuilder w)
  /\ taken (queryBuilder r) = taken (queryBuilder w).
Proof.
  unfold buildSortQuery. cbv zeta.
  destruct (QueryRequest.sort_by query) as [s|].
  - destruct (field_guard al s) eqn:Hg.
    + assert (s ∈ al) as Hin.
      { by apply field_guard_allowed. }
      split; [|done].
      destruct (QueryRequest.sort_order query) as [v|].
      * destruct (JS.includes validSortOrders v) eqn:Hv.
        -- apply includes_elem_of in Hv.
           destruct (valid_order_upper v Hv) as [Ht [[_ Hu]|[_ Hu]]];
             rewrite Ht; simpl; rewrite Hu;
             eexists _, _; (split; [reflexivity|]); tauto.
        -- rewrite andb_false_r. eexists _, _.
           split; [reflexivity|]. tauto.
      * eexists _, _. split; [reflexivity|]. tauto.
    + split; [|done]. exists "created_at", "DESC".
      split; [reflexivity|]. tauto.
  - split; [|done]. exists "created_at", "DESC".
    split; [reflexivity|]. tauto.
Qed.

End SortExtras.

(** ** Numbers that are integers *)

Section IntegerFacts.

Import Number.
Local Open Scope Qc_scope.

Lemma lt_of_Z (a b : Z) : lt (of_Z a) (of_Z b) = (a <? b)%Z.
Proof.
  unfold lt, of_Z. destruct (Z.ltb_spec a b) as [H|H].
  - apply Qc_ltb_lt. by rewrite <- Z2Qc_inj_lt.
  - apply Qc_ltb_ge. by rewrite <- Z2Qc_inj_le.
Qed.

Lemma max_of_Z (a b : Z) : max (of_Z a) (of_Z b) = of_Z (Z.max a b).
Proof.
  unfold max.
  change ((if lt (of_Z a) (of_Z b) then of_Z b else of_Z a)
          = of_Z (Z.max a b)).
  rewrite lt_of_Z. destruct (Z.ltb_spec a b); f_equal; lia.
Qed.

Lemma min_of_Z (a b : Z) : min (of_Z a) (of_Z b) = of_Z (Z.min a b).
Proof.
  unfold min.
  change ((if lt (of_Z b) (of_Z a) then of_Z b else of_Z a)
          = of_Z (Z.min a b)).
  rewrite lt_of_Z. destruct (Z.ltb_spec b a); f_equal; lia.
Qed.

Lemma add_of_Z (a b : Z) : add (of_Z a) (of_Z b) = of_Z (a + b).
Proof. unfold add, of_Z. by rewrite Z2Qc_inj_add. Qed.

Lemma sub_of_Z (a b : Z) : sub (of_Z a) (of_Z b) = of_Z (a - b).
Proof. unfold sub, add, opp, of_Z. by rewrite Z2Qc_inj_sub. Qed.

Lemma mul_of_Z (a b : Z) : mul (of_Z a) (of_Z b) = of_Z (a * b).
Proof. unfold mul, of_Z. by rewrite Z2Qc_inj_mul. Qed.

Lemma floor_of_Z (a : Z) : floor (of_Z a) = of_Z a.
Proof.
  change (of_Z (Qfloor (inject_Z a)) = of_Z a). by rewrite Qfloor_Z.
Qed.

Lemma gt_of_Z (a b : Z) : gt (of_Z a) (of_Z b) = (b <? a)%Z.
Proof. apply lt_of_Z. Qed.

Lemma ge_of_Z (a b : Z) : ge (of_Z a) (of_Z b) = (b <=? a)%Z.
Proof.
  unfold ge. simpl. change (negb (lt (of_Z a) (of_Z b)) = (b <=? a)%Z).
  rewrite lt_of_Z. destruct (Z.ltb_spec a b), (Z.leb_spec b a); try done; lia.
Qed.

Lemma Qc_of_Z_nonzero (l : Z) : (l <> 0)%Z -> Qc_eqb (Qc_of_Z l) 0 = false.
Proof.
  intros H. apply Qc_eqb_neq. rewrite <- Z2Qc_inj_0.
  intros E. by apply Z2Qc_inj in E.
Qed.

(** Dividing integers and rounding up is the integer quotient rounded
    up. *)
Lemma ceil_div_of_Z (t l : Z) :
  (0 < l)%Z -> ceil (div (of_Z t) (of_Z l)) = of_Z (Integers.ceil_div t l).
Proof.
  intros Hl. unfold div, of_Z. rewrite Qc_of_Z_nonzero by lia.
  unfold ceil, of_Z. do 2 f_equal. unfold Integers.ceil_div, Qceiling.
  f_equal. rewrite (Zdiv_Qdiv (- t) l). apply Qfloor_comp.
  unfold Qcdiv, Qcmult, Qcinv. simpl.
  rewrite !Qred_correct, inject_Z_opp. unfold Qdiv. ring.
Qed.

End IntegerFacts.

(** ** The limits are always in range *)

Section LimitsExtras.

Import Number Pagination.
Local Open Scope Qc_scope.

Lemma lt_irrefl n : lt n n = false.
Proof.
  destruct n as [| | |q]; try done. simpl. apply Qc_ltb_ge, Qcle_refl.
Qed.

Lemma max_not_NaN a b :
  isNaN a = false -> isNaN b = false ->
  max a b = if lt a b then b else a.
Proof. by destruct a, b. Qed.

Lemma min_not_NaN a b :
  isNaN a = false -> isNaN b = false ->
  min a b = if lt b a then b else a.
Proof. by destruct a, b. Qed.

Lemma coerce_page_not_NaN o : isNaN (coerce_page o) = false.
Proof.
  destruct o as [n|]; [|done]. simpl.
  destruct (unusable n) eqn:E; [done|].
  rewrite unusable_ge_one in E. apply negb_false_iff in E.
  by apply ge_not_NaN in E.
Qed.

Lemma floor_max_one_floor x : floor (max one (floor x)) = max one (floor x).
Proof.
  destruct x as [| | |q]; try done.
  change (floor (Fin q)) with (of_Z (Qfloor q)).
  change one with (of_Z 1). by rewrite max_of_Z, floor_of_Z.
Qed.

(** Clamping into the maximum: never above a maximum of at least one. *)
Lemma clamp_below_max x m :
  isNaN x = false -> ge m one = true -> gt (max one (min x m)) m = false.
Proof.
  intros Hx Hm. pose proof (ge_not_NaN _ _ Hm) as Hn.
  unfold gt. rewrite (min_not_NaN x m Hx Hn).
  assert (lt m one = false) as H1.
  { unfold ge in Hm. rewrite Hn in Hm. simpl in Hm.
    by apply negb_true_iff in Hm. }
  destruct (lt m x) eqn:E.
  - rewrite (max_not_NaN one m eq_refl Hn).
    destruct (lt one m); [apply lt_irrefl | exact H1].
  - rewrite (max_not_NaN one x eq_refl Hx).
    destruct (lt one x); [exact E | exact H1].
Qed.

Lemma offset_nonnegative p l :
  ge p one = true -> ge l one = true -> is_finite l = true ->
  ge (mul (sub p one) l) zero = true.
Proof.
  intros Hp Hl Hf. destruct l as [| | |l]; try done.
  apply ge_one_cases in Hl as [?|(l' & E & Hl)]; [done|].
  inversion E; subst l'. clear E.
  pose proof (Qc_one_pos l Hl) as Hpos.
  apply ge_one_cases in Hp as [->|(q & -> & Hp)].
  - simpl. unfold scale_inf. rewrite (Qc_one_neq_zero l Hl).
    rewrite Z2Qc_inj_0 in Hpos.
    by rewrite (proj2 (Qc_ltb_lt _ _) Hpos).
  - apply ge_zero_cases. right. eexists. split; [reflexivity|].
    rewrite Z2Qc_inj_0. apply Qcmult_nonneg_nonneg.
    + apply Qcle_minus_iff in Hp. exact Hp.
    + rewrite Z2Qc_inj_0 in Hpos. by apply Qclt_le_weak.
Qed.

Lemma page_ge_one dto configService :
  ge (page (getPaginationLimits dto configService)) one = true.
Proof.
  apply max_one_ge_one. rewrite isNaN_floor. apply coerce_page_not_NaN.
Qed.

Lemma limit_below_max dto configService :
  ge (maxPageSize configService) one = true ->
  gt (limit (getPaginationLimits dto configService))
     (maxPageSize configService) = false.
Proof.
  intros Hm. unfold getPaginationLimits. simpl.
  apply clamp_below_max; [|done]. rewrite isNaN_floor.
  apply coerce_per_page_not_NaN. apply defaultPageSize_not_NaN.
Qed.

(** Whatever the request and the configuration: the page is a whole
    number of at least one (or infinite), the limit is at least one and,
    when the configured maximum is at least one, not above it; with a
    finite limit the offset is not negative; and without a configuration
    service the limit is at most 100. *)
Theorem limits_always_in_range
    (dto : PaginationRequest.PaginationRequestDto)
    (configService : option ConfigService) :
  let l := getPaginationLimits dto configService in
  ge (page l) one = true
  /\ floor (page l) = page l
  /\ ge (limit l) one = true
  /\ (ge (maxPageSize configService) one = true ->
      gt (limit l) (maxPageSize configService) = false)
  /\ (is_finite (limit l) = true -> ge (offset l) zero = true)
  /\ (configService = None -> gt (limit l) (of_Z 100) = false).
Proof.
  intros l. repeat split.
  - apply page_ge_one.
  - apply floor_max_one_floor.
  - apply limit_ge_one.
  - apply limit_below_max.
  - intros Hf.
    apply offset_nonnegative;
      [apply (page_ge_one dto configService) | apply limit_ge_one | done].
  - intros ->. by apply (limit_below_max dto None).
Qed.

(** On integers the limits are computed with integers. *)
Lemma getPaginationLimits_integers
    (dto : PaginationRequest.PaginationRequestDto)
    (configService : option ConfigService) (p n m : Z) :
  PaginationRequest.page dto = Some (of_Z p) ->
  PaginationRequest.per_page dto = Some (of_Z n) ->
  maxPageSize configService = of_Z m ->
  (1 <= p)%Z -> (1 <= n)%Z ->
  getPaginationLimits dto configService
  = {| limit := of_Z (Z.max 1 (Z.min n m));
       offset := of_Z ((p - 1) * Z.max 1 (Z.min n m));
       page := of_Z p |}.
Proof.
  intros Hp Hn Hm Hp1 Hn1. unfold getPaginationLimits.
  rewrite Hp, Hn, Hm.
  rewrite coerce_page_keep
    by (change one with (of_Z 1); rewrite ge_of_Z; by apply Z.leb_le).
  rewrite coerce_per_page_keep
    by (change one with (of_Z 1); rewrite ge_of_Z; by apply Z.leb_le).
  change one with (of_Z 1).
  rewrite !floor_of_Z, min_of_Z, !max_of_Z, sub_of_Z, mul_of_Z.
  rewrite (Z.max_r 1 p) by lia. done.
Qed.

(** A request that is already normal is left as it is: an integer page
    of at least one and an integer size between one and the (integer)
    maximum come back unchanged, with [offset = (page - 1) * limit], as
    long as [page * size] is a safe integer.  Then the page, the page
    before it and the offset are all integers in the safe range, where
    the subtraction and the product of the code do not round. *)
Theorem limits_of_normal_request
    (dto : PaginationRequest.PaginationRequestDto)
    (configService : option ConfigService) (p n m : Z) :
  PaginationRequest.page dto = Some (of_Z p) ->
  PaginationRequest.per_page dto = Some (of_Z n) ->
  maxPageSize configService = of_Z m ->
  (1 <= p)%Z -> (1 <= n <= m)%Z ->
  (p * n <= Integers.MAX_SAFE_INTEGER)%Z ->
  getPaginationLimits dto configService
  = {| limit := of_Z n; offset := of_Z ((p - 1) * n); page := of_Z p |}
  /\ (p <= Integers.MAX_SAFE_INTEGER)%Z
  /\ (n <= Integers.MAX_SAFE_INTEGER)%Z
  /\ (0 <= p - 1 <= Integers.MAX_SAFE_INTEGER)%Z
  /\ (0 <= (p - 1) * n <= Integers.MAX_SAFE_INTEGER)%Z.
Proof.
  intros Hp Hn Hm Hp1 Hn1 Hsafe.
  rewrite (getPaginationLimits_integers dto configService p n m)
    by (done || lia).
  rewrite (Z.min_l n m), (Z.max_r 1 n) by lia.
  split; [done|]. nia.
Qed.

End LimitsExtras.

(** ** The metadata on integer input *)

Section MetaExtras.

Import Number Pagination Integers.

Lemma ceil_div_bounds (t l : Z) :
  (0 < l)%Z -> ((ceil_div t l - 1) * l < t <= ceil_div t l * l)%Z.
Proof.
  intros Hl. unfold ceil_div.
  pose proof (Z.mul_div_le (- t) l Hl).
  pose proof (Z.mul_succ_div_gt (- t) l Hl). nia.
Qed.

(** On integers [calculateMeta] computes with integers. *)
Lemma calculateMeta_of_Z (t p l : Z) :
  (0 < l)%Z ->
  calculateMeta (of_Z t) (of_Z p) (of_Z l)
  = {| totalPages := of_Z (ceil_div t l);
       currentPage := of_Z (currentPage_Z t p l);
       perPage := of_Z l;
       from := of_Z (from_Z t p l);
       to := of_Z (to_Z t p l) |}.
Proof.
  intros Hl. unfold calculateMeta, from_Z, to_Z, currentPage_Z.
  rewrite (ceil_div_of_Z t l Hl).
  change one with (of_Z 1). change zero with (of_Z 0).
  rewrite min_of_Z, max_of_Z, gt_of_Z, sub_of_Z, !mul_of_Z, add_of_Z, min_of_Z.
  by destruct (0 <? t)%Z.
Qed.

(** With rows, an integer page size of at least one and any integer
    page, [calculateMeta] describes a window that exists: the current
    page lies between one and the last page and is the requested page
    when that is in range, and [from .. to] is a non-empty range of at
    most [limit] positions inside [1 .. total]. *)
Theorem calculateMeta_window_is_valid (t p l : Z) :
  (0 < t)%Z -> (0 < l)%Z ->
  exists tp cp fr to : Z,
    calculateMeta (of_Z t) (of_Z p) (of_Z l)
    = {| totalPages := of_Z tp; currentPage := of_Z cp; perPage := of_Z l;
         from := of_Z fr; to := of_Z to |}
    /\ (1 <= cp <= tp)%Z
    /\ ((1 <= p <= tp)%Z -> cp = p)
    /\ (1 <= fr <= to)%Z /\ (to <= t)%Z
    /\ (to - fr + 1 <= l)%Z
    /\ fr = ((cp - 1) * l + 1)%Z.
Proof.
  intros Ht Hl.
  exists (ceil_div t l), (currentPage_Z t p l), (from_Z t p l), (to_Z t p l).
  split; [by apply calculateMeta_of_Z|].
  pose proof (ceil_div_bounds t l Hl) as Hb.
  unfold from_Z, to_Z, currentPage_Z.
  rewrite (proj2 (Z.ltb_lt 0 t) Ht).
  assert (1 <= ceil_div t l)%Z by nia.
  repeat split; try lia; nia.
Qed.

Lemma calculateMeta_window_is_valid_witness :
  exists tp cp fr to : Z,
    calculateMeta (of_Z 25) (of_Z 7) (of_Z 10)
    = {| totalPages := of_Z tp; currentPage := of_Z cp; perPage := of_Z 10;
         from := of_Z fr; to := of_Z to |}
    /\ (1 <= cp <= tp)%Z /\ (to <= 25)%Z.
Proof.
  destruct (calculateMeta_window_is_valid 25 7 10) as
    (tp & cp & fr & to & H & Hc & _ & _ & Ht & _); [lia | lia |].
  exists tp, cp, fr, to. done.
Defined.

(** For a total of at least zero the two response builders differ in
    one case only: with rows, [ResponseHelper.paginate] given what
    [calculateMeta] computed builds the very [meta] that
    [paginateWithMeta] builds from it. *)
Theorem response_builders_agree_with_rows (t p l : Z) :
  (0 < t)%Z -> (0 < l)%Z ->
  let m := calculateMeta (of_Z t) (of_Z p) (of_Z l) in
  ResponseHelper.paginate (currentPage m) (totalPages m) (of_Z l) (of_Z t)
  = ResponseHelper.paginateWithMeta m (of_Z t).
Proof.
  intros Ht Hl m.
  pose proof (ceil_div_bounds t l Hl) as Hb.
  unfold m. rewrite (calculateMeta_of_Z t p l Hl).
  unfold ResponseHelper.paginate, ResponseHelper.paginateWithMeta.
  cbn [totalPages currentPage perPage from to].
  change one with (of_Z 1). change zero with (of_Z 0).
  rewrite !max_of_Z, gt_of_Z, sub_of_Z, !mul_of_Z, add_of_Z, min_of_Z.
  unfold from_Z, to_Z. rewrite (proj2 (Z.ltb_lt 0 t) Ht).
  assert (1 <= ceil_div t l)%Z by nia.
  rewrite (Z.max_r 1 (ceil_div t l)) by lia.
  rewrite (Z.max_r 1 (currentPage_Z t p l)) by (unfold currentPage_Z; lia).
  done.
Qed.

Lemma response_builders_agree_with_rows_witness :
  ResponseHelper.paginate
    (currentPage (calculateMeta (of_Z 25) (of_Z 3) (of_Z 10)))
    (totalPages (calculateMeta (of_Z 25) (of_Z 3) (of_Z 10)))
    (of_Z 10) (of_Z 25)
  = ResponseHelper.paginateWithMeta
      (calculateMeta (of_Z 25) (of_Z 3) (of_Z 10)) (of_Z 25).
Proof.
  apply (response_builders_agree_with_rows 25 3 10); lia.
Defined.

End MetaExtras.

(** ** The three pagination paths on a page that exists *)

Section PathsAgree.

Import Number Pagination Integers.

Context {Row WhereClause OrderClause : Type}.
Variable getManyAndCount : Builder.SelectQueryBuilder -> option (list Row * nat).
Variable findAndCountAll :
  WhereClause -> OrderClause -> number -> number -> option (nat * list Row).

Lemma of_nat_of_Z (c : nat) : of_nat c = of_Z (Z.of_nat c).
Proof. done. Qed.

(** For an integer page of at least one that starts inside the rows and
    an integer size between one and the maximum, [paginateWithTypeORM]
    reports what [calculateMeta] computes: same current page, last page,
    [from] and [to]. *)
Theorem paginateWithTypeORM_agrees_with_calculateMeta
    (queryBuilder : Builder.SelectQueryBuilder)
    (dto : PaginationRequest.PaginationRequestDto)
    (configService : option ConfigService)
    (p n m : Z) (rows : list Row) (count : nat) :
  PaginationRequest.page dto = Some (of_Z p) ->
  PaginationRequest.per_page dto = Some (of_Z n) ->
  maxPageSize configService = of_Z m ->
  (1 <= p)%Z -> (1 <= n <= m)%Z ->
  ((p - 1) * n < Z.of_nat count)%Z ->
  getManyAndCount
    (Builder.take (of_Z n) (Builder.skip (of_Z ((p - 1) * n)) queryBuilder))
  = Some (rows, count) ->
  paginateWithTypeORM getManyAndCount queryBuilder dto configService
  = Some {| data := rows;
            meta := ResponseHelper.paginateWithMeta
                      (calculateMeta (of_nat count) (of_Z p) (of_Z n))
                      (of_nat count) |}.
Proof.
  intros Hp Hn Hm Hp1 Hn1 Hin Hq.
  unfold paginateWithTypeORM.
  rewrite (getPaginationLimits_integers dto configService p n m)
    by (done || lia).
  rewrite (Z.min_l n m), (Z.max_r 1 n) by lia.
  cbn [limit offset page]. rewrite Hq. do 2 f_equal.
  rewrite of_nat_of_Z.
  assert (0 < n)%Z as Hn0 by lia.
  pose proof (ceil_div_bounds (Z.of_nat count) n Hn0) as Hb.
  rewrite (calculateMeta_of_Z _ p n Hn0).
  unfold ResponseHelper.paginateWithMeta.
  cbn [totalPages currentPage perPage from to].
  rewrite (ceil_div_of_Z _ n Hn0).
  change one with (of_Z 1). change zero with (of_Z 0).
  rewrite gt_of_Z, !add_of_Z, min_of_Z.
  unfold from_Z, to_Z, currentPage_Z.
  assert (0 < Z.of_nat count)%Z as Hc by nia.
  rewrite (proj2 (Z.ltb_lt 0 _) Hc).
  assert (p <= ceil_div (Z.of_nat count) n)%Z by nia.
  rewrite (Z.min_l p), (Z.max_r 1 p) by lia.
  replace ((p - 1) * n + n)%Z with (p * n)%Z by ring. done.
Qed.

(** On the same page and size, with no size above the maximum to cut
    and the same answer from the store, the deprecated [paginate] returns
    what [paginateWithTypeORM] returns. *)
Theorem legacy_paginate_agrees_on_normal_request
    (queryBuilder : Builder.SelectQueryBuilder)
    (dto : PaginationRequest.PaginationRequestDto)
    (configService : option ConfigService)
    (whereClause : WhereClause) (orderClause : OrderClause)
    (defaultPageSize : number)
    (p n m : Z) (rows : list Row) (count : nat) :
  PaginationRequest.page dto = Some (of_Z p) ->
  PaginationRequest.per_page dto = Some (of_Z n) ->
  maxPageSize configService = of_Z m ->
  (1 <= p)%Z -> (1 <= n <= m)%Z ->
  getManyAndCount
    (Builder.take (of_Z n) (Builder.skip (of_Z ((p - 1) * n)) queryBuilder))
  = Some (rows, count) ->
  findAndCountAll whereClause orderClause (of_Z n) (of_Z ((p - 1) * n))
  = Some (count, rows) ->
  Helper.paginate findAndCountAll dto whereClause orderClause defaultPageSize
  = paginateWithTypeORM getManyAndCount queryBuilder dto configService.
Proof.
  intros Hp Hn Hm Hp1 Hn1 Hq Hf.
  unfold paginateWithTypeORM, Helper.paginate.
  rewrite (getPaginationLimits_integers dto configService p n m)
    by (done || lia).
  rewrite (Z.min_l n m), (Z.max_r 1 n) by lia.
  cbn [limit offset page]. rewrite Hp, Hn.
  assert (truthy (of_Z p) = true) as Htp.
  { apply ge_one_truthy. change one with (of_Z 1). rewrite ge_of_Z.
    by apply Z.leb_le. }
  assert (truthy (of_Z n) = true) as Htn.
  { apply ge_one_truthy. change one with (of_Z 1). rewrite ge_of_Z.
    apply Z.leb_le. lia. }
  unfold or_else. rewrite Htp, Htn.
  change one with (of_Z 1). rewrite sub_of_Z, mul_of_Z, Hq, Hf. done.
Qed.

End PathsAgree.

(** ** The users listing: DAO and service *)

Section UsersListing.

Import Number Builder Pagination Notions.

Context {JsonValue : Type}.
Variable JSON_parse : string -> option JsonValue.
Variable JSON_stringify : JsonValue -> string.
Variable toLowerCase toUpperCase : string -> string.
Variable User UserResponseDto : Type.
Variable mapToResponseDto : User -> UserResponseDto.
Variable getManyAndCount : SelectQueryBuilder -> option (list User * nat).

Local Abbreviation prepare :=
  (UsersDao.prepare JSON_parse JSON_stringify toUpperCase).
Local Abbreviation findAllWithPagination :=
  (UsersService.findAllWithPagination JSON_parse JSON_stringify
     toLowerCase toUpperCase User UserResponseDto mapToResponseDto
     getManyAndCount).

(** Every query the DAO prepares selects live users only: its first
    predicate is [user.deletedAt IS NULL], and what follows are at most
    one condition per filter, each of them, as a whole, one of the
    compiler's SQL shapes written around [user.<field>] for the field of
    a filter that is one of the searchable columns; the window is the
    given offset and limit, and an ordering is set. *)
Theorem dao_query_is_scoped
    (console : list ConsoleCall) (limit offset : number)
    (fs : list PaginationFilterDto) (sortField sortOrder : string) :
  let qb := queryBuilder (prepare console limit offset fs sortField sortOrder) in
  exists ps,
    wheres qb = UsersDao.soft_delete :: ps
    /\ length ps <= length fs
    /\ Forall (fun p => exists f k,
                 fs !! k = Some f /\ search_by f ∈ UsersDao.searchable
                 /\ condition_on "user" (search_by f) k (condition p) = true)
         ps
    /\ skipped qb = Some offset
    /\ taken qb = Some limit
    /\ is_Some (order qb).
Proof.
  unfold UsersDao.prepare. cbv zeta.
  destruct fs as [|f fs'].
  - exists [].
    destruct (JS.truthy_string sortField && JS.truthy_string sortOrder);
      simpl; repeat split; try done; try constructor; by eexists.
  - remember (f :: fs') as fs eqn:Efs.
    unfold Helper.buildWhereClause. cbv zeta.
    remember {| queryBuilder :=
                  UsersDao.where_ "user.deletedAt IS NULL"
                    UsersDao.createQueryBuilder;
                console := console |} as w0 eqn:Ew0.
    remember {| QueryRequest.search := None;
                QueryRequest.sort_by :=
                  PaginationRequest.sort_by (UsersDao.only_filters fs);
                QueryRequest.sort_order :=
                  PaginationRequest.sort_order (UsersDao.only_filters fs);
                QueryRequest.filters :=
                  Some (default []
                          (PaginationRequest.filters
                             (UsersDao.only_filters fs))) |} as q eqn:Eq.
    destruct (buildSearchQuery_added JSON_parse JSON_stringify
                w0 q UsersDao.searchable "user")
      as (ps & Hw & Hlen & Hall').
    exists ps.
    assert (wheres (queryBuilder w0) = [UsersDao.soft_delete]) as Hw0
      by (by rewrite Ew0).
    rewrite Hw0 in Hw.
    assert (QueryRequest.filters q = Some fs) as Hq by (by rewrite Eq).
    rewrite Hq in Hlen, Hall'. simpl in Hlen, Hall'.
    destruct (JS.truthy_string sortField && JS.truthy_string sortOrder);
      simpl; rewrite Hw; repeat split; try done; try lia; by eexists.
Qed.

(** The service rejects a request exactly when one of its filters is not
    well-formed.  The rejection is the [BadRequestException] that lists
    the validator's messages; it does not depend on the store, since no
    query is prepared or run and the predicate compiler, which is not
    reached, makes no console call; and the [catch] block logs the
    exception with [console.error] before throwing it again. *)
Theorem service_rejects_invalid_filters
    (console : list ConsoleCall)
    (dto : PaginationRequest.PaginationRequestDto)
    (fs : list PaginationFilterDto) :
  PaginationRequest.filters dto = Some fs ->
  let errors := Validator.validateFilters fs UsersService.allowedSearchFields in
  let rejection :=
    UsersService.BadRequestException
      ("Invalid filters: " +:+ UsersService.join ", " errors) in
  (~ Forall (fun f => filter_ok UsersService.allowedSearchFields f = true) fs ->
     findAllWithPagination console dto
     = {| UsersService.compiler_console := console;
          UsersService.logged := Some rejection;
          UsersService.result := inl rejection |})
  /\ (Forall (fun f => filter_ok UsersService.allowedSearchFields f = true) fs ->
      forall message,
        UsersService.result _ (findAllWithPagination console dto)
        <> inl (UsersService.BadRequestException message)).
Proof.
  intros Hfs errors rejection. unfold UsersService.findAllWithPagination.
  rewrite Hfs. fold errors. split.
  - intros Hbad. destruct errors as [|e es] eqn:E; [|done].
    exfalso. apply Hbad.
    apply (errors_from_nil_iff UsersService.allowedSearchFields fs 0).
    by rewrite <- validateFilters_unfold.
  - intros Hok message.
    apply (errors_from_nil_iff UsersService.allowedSearchFields fs 0) in Hok.
    rewrite <- validateFilters_unfold in Hok. unfold errors. rewrite Hok.
    cbv zeta.
    destruct (UsersDao.getUsersWithPagination _ _ _ _ _ _ _ _ _ _ _)
      as [[[users n]|] console']; simpl; discriminate.
Qed.


Import Accepted Integers.

(** The query the service runs for a request. *)
Local Abbreviation query_of console dto :=
  (queryBuilder
     (prepare console
        (limit (getPaginationLimits dto None))
        (offset (getPaginationLimits dto None))
        (default [] (PaginationRequest.filters dto))
        (JS.or_else (PaginationRequest.sort_by dto) "createdAt")
        (toLowerCase (JS.or_else (PaginationRequest.sort_order dto) "desc")))).

Lemma accepted_no_errors dto :
  accepted dto ->
  match PaginationRequest.filters dto with
  | Some fs => Validator.validateFilters fs UsersService.allowedSearchFields
  | None => []
  end = [].
Proof.
  unfold accepted. destruct (PaginationRequest.filters dto) as [fs|]; [|done].
  intros Hok. rewrite validateFilters_unfold. by apply errors_from_nil_iff.
Qed.

Lemma min_mul_one_zero l : ge l one = true -> min (mul one l) zero = zero.
Proof.
  intros Hl. apply ge_one_cases in Hl as [->|(x & -> & Hl)]; [done|].
  unfold min, one, zero, of_Z. simpl.
  assert (Qc_of_Z 0 < Qc_of_Z 1 * x)%Qc as H.
  { rewrite Z2Qc_inj_1, Qcmult_1_l. by apply Qc_one_pos. }
  by rewrite (proj2 (Qc_ltb_lt _ _) H).
Qed.

(** For an accepted request whose query finds no user, the listing says
    page one of zero with [from = 1] and [to = 0]: the service computes
    [from] again, without the test for an empty result that
    [calculateMeta] makes. *)
Theorem service_listing_without_rows
    (console : list ConsoleCall)
    (dto : PaginationRequest.PaginationRequestDto) (users : list User) :
  accepted dto ->
  getManyAndCount (query_of console dto) = Some (users, 0%nat) ->
  exists listing,
    UsersService.result _ (findAllWithPagination console dto) = inr listing
    /\ UsersService.count _ listing = zero
    /\ UsersService.totalPages _ listing = zero
    /\ UsersService.currentPage _ listing = one
    /\ UsersService.from _ listing = one
    /\ UsersService.to _ listing = zero
    /\ from (calculateMeta zero (page (getPaginationLimits dto None))
               (limit (getPaginationLimits dto None))) = zero.
Proof.
  intros Hacc Hq. unfold UsersService.findAllWithPagination.
  rewrite (accepted_no_errors dto Hacc). cbv zeta.
  unfold UsersDao.getUsersWithPagination. cbv zeta. rewrite Hq.
  pose proof (page_ge_one dto None) as Hp.
  pose proof (limit_ge_one dto None) as Hl.
  pose proof (limit_below_max dto None eq_refl) as H100.
  set (l := getPaginationLimits dto None) in *.
  change (of_nat 0) with zero.
  rewrite (calculateMeta_no_rows _ _ Hp Hl).
  eexists. split; [reflexivity|].
  cbn [UsersService.count UsersService.totalPages UsersService.currentPage
       UsersService.from UsersService.to currentPage perPage from].
  repeat split; try done.
  - apply ge_one_cases in Hl as [E|(x & E & Hx)]; rewrite E in *; [done|].
    unfold sub, add, mul, opp, one, of_Z. f_equal. ring.
  - by apply min_mul_one_zero.
Qed.

(** For an accepted request with an integer page of at least one and an
    integer size between 1 and 100, whose query finds [n > 0] users, the
    listing carries the mapped rows and a window that exists: the page
    lies between one and the last page, and [from .. to] is a non-empty
    range of at most [perPage] positions inside [1 .. n]. *)
Theorem service_listing_with_rows
    (console : list ConsoleCall)
    (dto : PaginationRequest.PaginationRequestDto)
    (p k : Z) (users : list User) (n : nat) :
  accepted dto ->
  PaginationRequest.page dto = Some (of_Z p) ->
  PaginationRequest.per_page dto = Some (of_Z k) ->
  (1 <= p)%Z -> (1 <= k <= 100)%Z -> (0 < n)%nat ->
  getManyAndCount (query_of console dto) = Some (users, n) ->
  exists tp cp fr to : Z,
    UsersService.result _ (findAllWithPagination console dto)
    = inr {| UsersService.rows := map mapToResponseDto users;
             UsersService.count := of_nat n;
             UsersService.totalPages := of_Z tp;
             UsersService.currentPage := of_Z cp;
             UsersService.perPage := of_Z k;
             UsersService.from := of_Z fr;
             UsersService.to := of_Z to |}
    /\ (1 <= cp <= tp)%Z
    /\ (1 <= fr <= to)%Z /\ (to <= Z.of_nat n)%Z /\ (to - fr + 1 <= k)%Z.
Proof.
  intros Hacc Hp Hk Hp1 Hk1 Hn Hq.
  unfold UsersService.findAllWithPagination.
  rewrite (accepted_no_errors dto Hacc). cbv zeta.
  unfold UsersDao.getUsersWithPagination. cbv zeta. rewrite Hq.
  rewrite (getPaginationLimits_integers dto None p k 100) by (done || lia).
  rewrite (Z.min_l k 100), (Z.max_r 1 k) by lia.
  cbn [limit offset page].
  assert (0 < k)%Z as Hk0 by lia.
  rewrite of_nat_of_Z, (calculateMeta_of_Z _ p k Hk0).
  cbn [totalPages currentPage perPage].
  change one with (of_Z 1).
  rewrite sub_of_Z, !mul_of_Z, add_of_Z, min_of_Z.
  pose proof (ceil_div_bounds (Z.of_nat n) k Hk0) as Hb.
  eexists _, _, _, _. split; [reflexivity|].
  unfold currentPage_Z.
  assert (1 <= ceil_div (Z.of_nat n) k)%Z by nia.
  repeat split; try lia; nia.
Qed.

(** The service checks filter fields against its allow-list, but not the
    sort field: any non-empty [sort_by] becomes the ORDER BY column of the
    query it runs, prefixed with [user.], whatever the filters are; an
    absent or empty one becomes [user.createdAt]. *)
Theorem service_sort_field_unchecked
    (console : list ConsoleCall)
    (dto : PaginationRequest.PaginationRequestDto) :
  let direction :=
    toLowerCase (JS.or_else (PaginationRequest.sort_order dto) "desc") in
  direction <> EmptyString ->
  (forall c s,
     PaginationRequest.sort_by dto = Some (String c s) ->
     order (query_of console dto)
     = Some ("user." +:+ String c s, toUpperCase direction))
  /\ (JS.truthy (PaginationRequest.sort_by dto) = false ->
      order (query_of console dto)
      = Some ("user.createdAt", toUpperCase direction)).
Proof.
  intros direction Hd.
  assert (JS.truthy_string direction = true) as Ht.
  { by destruct direction. }
  assert (forall field, JS.truthy_string field = true ->
            order (queryBuilder
                     (prepare console
                        (limit (getPaginationLimits dto None))
                        (offset (getPaginationLimits dto None))
                        (default [] (PaginationRequest.filters dto))
                        field direction))
            = Some ("user." +:+ field, toUpperCase direction)) as H.
  { intros field Hf. unfold UsersDao.prepare. cbv zeta. rewrite Hf, Ht.
    by destruct (default [] (PaginationRequest.filters dto)). }
  split.
  - intros c s Hs. fold direction. rewrite Hs. by apply H.
  - intros Hs. fold direction.
    assert (JS.or_else (PaginationRequest.sort_by dto) "createdAt"
            = "createdAt") as ->.
    { by destruct (PaginationRequest.sort_by dto) as [[|? ?]|]. }
    by apply H.
Qed.

End UsersListing.

(** ** The two clause builders of the pagination helper *)

Section ClauseBuilders.

Import Builder Search.

Context {JsonValue : Type}.
Variable JSON_parse : string -> option JsonValue.
Variable JSON_stringify : JsonValue -> string.

Local Abbreviation compile_filter :=
  (Search.compile_filter JSON_parse JSON_stringify).
Local Abbreviation compile_from :=
  (Search.compile_from JSON_parse JSON_stringify).

(** What one filter does to the builder does not depend on the console,
    and goes through any change of the builder that leaves the
    predicates alone. *)
Lemma compile_filter_builder g al alias f i w w' :
  (forall c ps qb, g (andWhere c ps qb) = andWhere c ps (g qb)) ->
  queryBuilder w' = g (queryBuilder w) ->
  queryBuilder (compile_filter al alias f i w')
  = g (queryBuilder (compile_filter al alias f i w)).
Proof.
  intros Hg Hw. unfold Search.compile_filter.
  destruct (field_guard al (search_by f)); [|done].
  destruct (FilterType_of_string (filter_type f)) as [t|]; [|done].
  cbv zeta.
  destruct t; unfold bind1, json_case;
    repeat (match goal with
            | |- context [match ?x with _ => _ end] => destruct x
            end);
    first [ exact Hw | simpl; by rewrite Hw, Hg ].
Qed.

Lemma compile_from_builder g al alias fs : forall i w w',
  (forall c ps qb, g (andWhere c ps qb) = andWhere c ps (g qb)) ->
  queryBuilder w' = g (queryBuilder w) ->
  queryBuilder (compile_from al alias fs i w')
  = g (queryBuilder (compile_from al alias fs i w)).
Proof.
  induction fs as [|f fs IH]; intros i w w' Hg Hw; [done|].
  simpl. apply IH; [done|]. by apply compile_filter_builder.
Qed.

Lemma buildSortQuery_builder query sf alias :
  exists col dir, forall w,
    queryBuilder (buildSortQuery w query sf alias)
    = orderBy col dir (queryBuilder w).
Proof.
  unfold buildSortQuery. cbv zeta.
  destruct (QueryRequest.sort_by query) as [s|]; [|by eexists _, _].
  destruct (field_guard sf s); by eexists _, _.
Qed.

(** [buildWhereClause] and [buildOrderClause] can be applied to a query
    in either order: the resulting query is the same.  The first only
    appends predicates, the second only sets the ordering, and neither
    reads what the other writes. *)
Theorem clause_builders_commute
    (w : World) (dto : PaginationRequest.PaginationRequestDto)
    (allowedFields allowedSortFields : list string)
    (alias alias' : string) :
  queryBuilder
    (Helper.buildOrderClause
       (Helper.buildWhereClause JSON_parse JSON_stringify w dto
          allowedFields alias)
       dto allowedSortFields alias')
  = queryBuilder
      (Helper.buildWhereClause JSON_parse JSON_stringify
         (Helper.buildOrderClause w dto allowedSortFields alias')
         dto allowedFields alias).
Proof.
  unfold Helper.buildOrderClause, Helper.buildWhereClause. cbv zeta.
  destruct (buildSortQuery_builder
              {| QueryRequest.search := None;
                 QueryRequest.sort_by := PaginationRequest.sort_by dto;
                 QueryRequest.sort_order := PaginationRequest.sort_order dto;
                 QueryRequest.filters := None |} allowedSortFields alias')
    as (col & dir & H).
  rewrite H. unfold Search.buildSearchQuery. cbn [QueryRequest.filters].
  symmetry. apply compile_from_builder; [done|]. apply H.
Qed.

End ClauseBuilders.

(** ** The properties at sample requests *)

Section AtSampleRequests.

Import Number Builder Pagination Notions Fixtures Samples.

(** The notion of a condition on a column tells the column from a
    longer-named one and from a condition with more text after it. *)
Lemma condition_on_is_exact :
  condition_on "user" "email" 0 "user.email = :param_0" = true
  /\ condition_on "user" "email" 0 "LOWER(user.email) LIKE LOWER(:param_0)"
     = true
  /\ condition_on "user" "email" 0 "user.email_hash = :param_0" = false
  /\ condition_on "user" "email" 0 "user.email = :param_0 OR 1 = 1" = false
  /\ condition_on "user" "email" 0 "user.email = :param_1" = false
  /\ condition_on "user" "id" 0 "user.idx IS NULL" = false.
Proof. repeat split; vm_compute; reflexivity. Qed.

Lemma buildSearchQuery_allowed_columns_only_witness :
  Forall (fun p => exists f fs k,
            QueryRequest.filters
              (query None None (Some [equal_email; like_password]))
            = Some fs
            /\ fs !! k = Some f /\ search_by f ∈ user_fields
            /\ condition_on "user" (search_by f) k (condition p) = true)
    (wheres (queryBuilder
               (search start
                  (query None None (Some [equal_email; like_password]))
                  user_fields "user"))).
Proof.
  exact (buildSearchQuery_allowed_columns_only Json.parse Json.stringify
           start (query None None (Some [equal_email; like_password]))
           user_fields "user" _ eq_refl).
Defined.

Lemma buildSearchQuery_parameter_names_distinct_witness :
  exists p q,
    wheres (queryBuilder
              (search start (query None None (Some [equal_email; like_name]))
                 user_fields "user"))
    = [p; q]
    /\ dom (parameters p) ## dom (parameters q).
Proof.
  eexists _, _. split; [reflexivity|].
  apply (buildSearchQuery_parameter_names_distinct Json.parse Json.stringify
           start (query None None (Some [equal_email; like_name]))
           user_fields "user" _ 0 1 _ _ eq_refl);
    [lia | reflexivity | reflexivity].
Defined.

Lemma accepted_filter_adds_one_predicate_witness :
  exists c ps,
    compile user_fields "user" equal_email 0 start
    = on_builder (andWhere c ps) start
    /\ condition_on "user" "email" 0 c = true.
Proof.
  exact (accepted_filter_adds_one_predicate Json.parse Json.stringify
           user_fields "user" equal_email 0 start EQUAL
           eq_refl eq_refl eq_refl eq_refl).
Defined.

Lemma compiler_on_missing_operands_witness :
  exists c,
    compile user_fields "user" like_without_value 0 start
    = on_builder
        (andWhere c {[ "param_0" := PString "%undefined%" ]}) start.
Proof.
  destruct (compiler_on_missing_operands Json.parse Json.stringify
              user_fields "user" like_without_value 0 start LIKE
              eq_refl eq_refl eq_refl) as [_ H].
  destruct (H eq_refl) as (c & pattern & Hc & Hnone & _).
  exists c. unfold compile. rewrite Hc, (Hnone eq_refl). reflexivity.
Defined.

Lemma unknown_operator_reported_and_ignored_witness :
  "Filter 1: Unknown filter type 'fuzzy'"
    ∈ Validator.filter_errors user_fields 0 fuzzy_name
  /\ compile user_fields "user" fuzzy_name 0 start = start.
Proof.
  apply (unknown_operator_reported_and_ignored Json.parse Json.stringify
           user_fields "user" fuzzy_name 0 start).
  intros t. destruct t; discriminate.
Defined.

Lemma limits_of_normal_request_witness :
  getPaginationLimits (request (Some 3%Z) (Some 20%Z) None None None) None
  = {| limit := of_Z 20; offset := of_Z ((3 - 1) * 20); page := of_Z 3 |}.
Proof.
  apply (limits_of_normal_request
           (request (Some 3%Z) (Some 20%Z) None None None) None 3 20 100
           eq_refl eq_refl eq_refl); [lia | lia | by vm_compute].
Defined.

Lemma paginateWithTypeORM_agrees_with_calculateMeta_witness :
  paginateWithTypeORM (store ["ann"; "bob"] 45) (queryBuilder start)
    (request (Some 3%Z) (Some 20%Z) None None None) None
  = Some {| data := ["ann"; "bob"];
            meta := ResponseHelper.paginateWithMeta
                      (calculateMeta (of_nat 45) (of_Z 3) (of_Z 20))
                      (of_nat 45) |}.
Proof.
  apply (paginateWithTypeORM_agrees_with_calculateMeta
           (store ["ann"; "bob"] 45) (queryBuilder start)
           (request (Some 3%Z) (Some 20%Z) None None None) None 3 20 100
           ["ann"; "bob"] 45 eq_refl eq_refl eq_refl);
    [lia | lia | lia | reflexivity].
Defined.

Lemma legacy_paginate_agrees_on_normal_request_witness :
  Helper.paginate (repository ["ann"; "bob"] 45)
    (request (Some 3%Z) (Some 20%Z) None None None) tt tt (of_Z 10)
  = paginateWithTypeORM (store ["ann"; "bob"] 45) (queryBuilder start)
      (request (Some 3%Z) (Some 20%Z) None None None) None.
Proof.
  apply (legacy_paginate_agrees_on_normal_request
           (store ["ann"; "bob"] 45) (repository ["ann"; "bob"] 45)
           (queryBuilder start)
           (request (Some 3%Z) (Some 20%Z) None None None) None tt tt
           (of_Z 10) 3 20 100 ["ann"; "bob"] 45 eq_refl eq_refl eq_refl);
    [lia | lia | reflexivity | reflexivity].
Defined.

Lemma service_rejects_invalid_filters_witness :
  users_service ["ann"] 1 []
    (request None None None None (Some [like_password]))
  = {| UsersService.compiler_console := [];
       UsersService.logged :=
         Some (UsersService.BadRequestException
                 ("Invalid filters: "
                  +:+ "Filter 1: 'password' is not an allowed search field"));
       UsersService.result :=
         inl (UsersService.BadRequestException
                ("Invalid filters: "
                 +:+ "Filter 1: 'password' is not an allowed search field")) |}.
Proof.
  destruct (service_rejects_invalid_filters Json.parse Json.stringify
              JS.toLowerCase JS.toUpperCase string string (fun u => u)
              (store ["ann"] 1) []
              (request None None None None (Some [like_password]))
              [like_password] eq_refl) as [H _].
  apply H. intros Hall. apply Forall_cons in Hall as [Hbad _]. discriminate.
Defined.

Lemma service_listing_without_rows_witness :
  exists listing,
    UsersService.result _
      (users_service [] 0 []
         (request (Some 2%Z) None None None (Some [equal_email])))
    = inr listing
    /\ UsersService.totalPages _ listing = zero
    /\ UsersService.currentPage _ listing = one
    /\ UsersService.from _ listing = one
    /\ UsersService.to _ listing = zero.
Proof.
  destruct (service_listing_without_rows Json.parse Json.stringify
              JS.toLowerCase JS.toUpperCase string string (fun u => u)
              (store [] 0) []
              (request (Some 2%Z) None None None (Some [equal_email])) [])
    as (listing & Hr & _ & Ht & Hc & Hf & Hto & _).
  - repeat constructor.
  - reflexivity.
  - exists listing. repeat split; assumption.
Defined.

Lemma service_listing_with_rows_witness :
  exists tp cp fr to : Z,
    UsersService.result _
      (users_service ["ann"; "bob"] 15 []
         (request (Some 2%Z) (Some 10%Z) None None (Some [equal_email])))
    = inr {| UsersService.rows := ["ann"; "bob"];
             UsersService.count := of_nat 15;
             UsersService.totalPages := of_Z tp;
             UsersService.currentPage := of_Z cp;
             UsersService.perPage := of_Z 10;
             UsersService.from := of_Z fr;
             UsersService.to := of_Z to |}
    /\ (1 <= cp <= tp)%Z /\ (1 <= fr <= to)%Z.
Proof.
  destruct (service_listing_with_rows Json.parse Json.stringify
              JS.toLowerCase JS.toUpperCase string string (fun u => u)
              (store ["ann"; "bob"] 15) []
              (request (Some 2%Z) (Some 10%Z) None None (Some [equal_email]))
              2 10 ["ann"; "bob"] 15)
    as (tp & cp & fr & to & Hr & Hc & Hf & _).
  - repeat constructor.
  - reflexivity.
  - reflexivity.
  - lia.
  - lia.
  - lia.
  - reflexivity.
  - exists tp, cp, fr, to. repeat split; try assumption; lia.
Defined.

Lemma service_sort_field_unchecked_witness :
  order (queryBuilder
           (UsersDao.prepare Json.parse Json.stringify JS.toUpperCase []
              (limit (getPaginationLimits
                        (request None None (Some "password") (Some "ASC") None)
                        None))
              (offset (getPaginationLimits
                         (request None None (Some "password") (Some "ASC") None)
                         None))
              [] "password" "asc"))
  = Some ("user.password", "ASC").
Proof.
  destruct (service_sort_field_unchecked Json.parse Json.stringify
              JS.toLowerCase JS.toUpperCase []
              (request None None (Some "password") (Some "ASC") None))
    as [H _].
  - discriminate.
  - exact (H _ _ eq_refl).
Defined.

End AtSampleRequests.
